(** * Health API: a shallow embedding of [main.py]

    The service is a FastAPI application with seven GET handlers.  Each
    handler is embedded as a Rocq function from its (already parsed) query
    parameters to an [outcome]: either the returned dictionary or the Python
    exception that leaves the handler.

    - Python [float] is IEEE-754 binary64: Rocq's primitive [float].  The one
      operation the C library does not round correctly, [pow], is an
      argument of the code that calls it.
    - Python [int] is unbounded: [Z].
    - Python [dict] literals returned by handlers and decoded JSON bodies are
      [value]s; the two lookup tables of the module ([os.environ],
      [met_values]) are [gmap]s keyed by strings.
    - [raise] / [try ... except] are explicit: [Raise e] and a dispatch on the
      exception class.
    - The outside world of the two proxy handlers (the environment, the
      network, the OpenAI client) is passed to them as arguments.

    Logging has no effect on what a handler returns and is left out.  What
    FastAPI does around a handler (parsing the query string, rendering the
    returned dictionary, turning an exception into a response) is library
    code and is not part of the embedding. *)

From Stdlib Require Import ZArith Floats Bool List Lia.
From stdpp Require Import base option gmap strings pretty.
Import ListNotations.

Set Warnings "-inexact-float,-register-all".
Local Open Scope string_scope.

(** ** Python exceptions *)

(** The exception classes that can reach one of the handlers' [except]
    clauses or leave a handler.  [RequestException] stands for every
    [requests.exceptions.RequestException] that is not a [Timeout], and
    [OpenAIError] for every [openai.error.OpenAIError] that is not an
    [AuthenticationError]; [OtherException] is any other subclass of
    [Exception] coming out of a library call.  Every exception but
    [HTTPException] carries the text that [str (e)] yields (texts of the
    built-in ones as CPython 3.11 words them). *)
Inductive exn : Type :=
| HTTPException (status_code : Z) (detail : string)
| RuntimeError (msg : string)
| ZeroDivisionError (msg : string)
| OverflowError (msg : string)
| KeyError (msg : string)
| IndexError (msg : string)
| TypeError (msg : string)
| AttributeError (msg : string)
| Timeout (msg : string)
| RequestException (msg : string)
| AuthenticationError (msg : string)
| OpenAIError (msg : string)
| OtherException (msg : string).

(** What a handler (or the module body) does: return a value or raise. *)
Inductive outcome (A : Type) : Type :=
| Return (a : A)
| Raise (e : exn).
Arguments Return {A} a.
Arguments Raise {A} e.

#[global] Instance outcome_ret : MRet outcome := fun A a => Return a.

#[global] Instance outcome_bind : MBind outcome := fun A B k m =>
  match m with
  | Return a => k a
  | Raise e => Raise e
  end.

(** ** Python values *)

(** Values of the dictionaries the handlers return and of decoded JSON
    bodies.  A [VDict] keeps its items in insertion order, one item per key. *)
Inductive value : Type :=
| VNone
| VBool (b : bool)
| VInt (n : Z)
| VFloat (x : float)
| VStr (s : string)
| VList (l : list value)
| VDict (items : list (string * value)).

(** ** Python float operations *)

Module PyFloat.

(** [a / b] on floats ([float_div] in floatobject.c): a zero divisor raises,
    anything else is the IEEE quotient. *)
Definition truediv (a b : float) : outcome float :=
  if (b =? 0)%float then Raise (ZeroDivisionError "float division by zero")
  else Return (a / b)%float.

(** [iv ** 2] on a float ([float_pow] in floatobject.c with [iw = 2.0]).
    NaN, the infinities, zero and one are answered without the C library;
    any other value is handed, without its sign, to C's [pow].  [pow_2 x]
    stands for [pow (x, 2.0)]: the C library computes it to within a unit in
    the last place and need not round it correctly, so it is an argument and
    nothing is assumed about its values.  An infinite result sets [ERANGE]
    and raises; an underflow to zero does not. *)
Definition pow2 (pow_2 : float -> float) (iv : float) : outcome float :=
  if is_nan iv then Return iv
  else if is_infinity iv then Return (abs iv)
  else if (iv =? 0)%float then Return 0%float
  else
    let iv := if (iv <? 0)%float then (- iv)%float else iv in
    if (iv =? 1)%float then Return 1%float
    else
      let ix := pow_2 iv in
      if is_infinity ix
      then Raise (OverflowError "(34, 'Numerical result out of range')")
      else Return ix.

(** One possible [pow_2]: the correctly rounded square.  It is the sample
    the examples are run with; a C library may differ from it in the last
    bit. *)
Definition ieee_square (x : float) : float := (x * x)%float.

(** [x ** 2] raises with [ieee_square]: [x] is finite and its square is
    not. *)
Definition square_overflows (x : float) : bool :=
  is_finite x && is_infinity (x * x)%float.

(** The integer nearest to [n / d] for [d > 0], ties to the even one. *)
Definition round_half_even (n d : Z) : Z :=
  let q := (n / d)%Z in
  let r := (n mod d)%Z in
  match (2 * r ?= d)%Z with
  | Lt => q
  | Gt => (q + 1)%Z
  | Eq => if Z.even q then q else (q + 1)%Z
  end.

(** [round (x, 2)] on a float ([double_round] in floatobject.c): the exact
    binary value of [x] is rounded half-even to two decimals, and the
    resulting decimal is converted back to the nearest float.  NaN,
    infinities and zeros round to themselves. *)
Definition round2 (x : float) : float :=
  match Prim2SF x with
  | S754_finite s m e =>
      if (0 <=? e)%Z then x
      else
        match round_half_even (Z.pos m * 100) (2 ^ (- e)) with
        | Z.pos n =>
            SF2Prim (SFdiv prec emax (S754_finite s n 0) (S754_finite false 100 0))
        | _ => if s then (-0)%float else 0%float
        end
  | _ => x
  end.

End PyFloat.

(** ** Python operations on values *)

Module Py.

(** [str (e)] for an exception object.  Starlette's [HTTPException] prints
    as [status_code: detail], every other exception as the text it carries. *)
Definition str (e : exn) : string :=
  match e with
  | HTTPException status_code detail => pretty status_code +:+ ": " +:+ detail
  | RuntimeError msg | ZeroDivisionError msg | OverflowError msg
  | KeyError msg | IndexError msg | TypeError msg | AttributeError msg
  | Timeout msg | RequestException msg
  | AuthenticationError msg | OpenAIError msg | OtherException msg => msg
  end.

(** [type (v).__name__]. *)
Definition type_name (v : value) : string :=
  match v with
  | VNone => "NoneType"
  | VBool _ => "bool"
  | VInt _ => "int"
  | VFloat _ => "float"
  | VStr _ => "str"
  | VList _ => "list"
  | VDict _ => "dict"
  end.

Definition not_subscriptable (v : value) : exn :=
  TypeError ("'" +:+ type_name v +:+ "' object is not subscriptable").

(** [sep.join (l)]. *)
Fixpoint join (sep : string) (l : list string) : string :=
  match l with
  | [] => ""
  | [s] => s
  | s :: rest => s +:+ sep +:+ join sep rest
  end.

(** Truth value of an object, as [not x] and [if x] test it. *)
Definition truthy (v : value) : bool :=
  match v with
  | VNone => false
  | VBool b => b
  | VInt n => negb (n =? 0)%Z
  | VFloat x => negb (x =? 0)%float
  | VStr s => negb (String.eqb s "")
  | VList l => negb (bool_decide (l = []))
  | VDict items => negb (bool_decide (items = []))
  end.

(** Truth value of an optional string, as [not os.getenv (var)] tests it. *)
Definition truthy_str (s : option string) : bool :=
  match s with
  | Some s => negb (String.eqb s "")
  | None => false
  end.

(** The item stored under [key] in the items of a dictionary. *)
Definition dict_lookup (key : string) (items : list (string * value))
  : option value :=
  snd <$> List.find (fun kv => String.eqb (fst kv) key) items.

(** [needle in hay] on two strings: [needle] occurs in [hay]. *)
Fixpoint occurs (needle hay : string) : bool :=
  String.prefix needle hay
  || match hay with
     | EmptyString => false
     | String _ rest => occurs needle rest
     end.

(** [key in data] for a string [key]: key membership for a dictionary,
    element membership for a list, substring test for a string, and a
    [TypeError] for anything that is not a container. *)
Definition contains (key : string) (data : value) : outcome bool :=
  match data with
  | VDict items => Return (bool_decide (is_Some (dict_lookup key items)))
  | VList l =>
      Return (existsb (fun v => match v with
                                | VStr s => String.eqb s key
                                | _ => false
                                end) l)
  | VStr s => Return (occurs key s)
  | VNone | VBool _ | VInt _ | VFloat _ =>
      Raise (TypeError ("argument of type '" +:+ type_name data
                        +:+ "' is not iterable"))
  end.

(** [data[key]] for a string [key]. *)
Definition getitem (data : value) (key : string) : outcome value :=
  match data with
  | VDict items =>
      match dict_lookup key items with
      | Some v => Return v
      | None => Raise (KeyError ("'" +:+ key +:+ "'"))
      end
  | VList _ => Raise (TypeError "list indices must be integers or slices, not str")
  | VStr _ => Raise (TypeError "string indices must be integers, not 'str'")
  | VNone | VBool _ | VInt _ | VFloat _ => Raise (not_subscriptable data)
  end.

(** [data[0]].  The keys of a decoded JSON object are strings, so [0] is
    never one of them. *)
Definition getitem0 (data : value) : outcome value :=
  match data with
  | VList (v :: _) => Return v
  | VList [] => Raise (IndexError "list index out of range")
  | VStr (String c _) => Return (VStr (String c EmptyString))
  | VStr EmptyString => Raise (IndexError "string index out of range")
  | VDict _ => Raise (KeyError "0")
  | VNone | VBool _ | VInt _ | VFloat _ => Raise (not_subscriptable data)
  end.

(** [data.get (key)]: only dictionaries have the method. *)
Definition get (data : value) (key : string) : outcome value :=
  match data with
  | VDict items => Return (default VNone (dict_lookup key items))
  | _ => Raise (AttributeError ("'" +:+ type_name data
                                +:+ "' object has no attribute 'get'"))
  end.

End Py.

(** ** Module initialisation *)

(** [os.environ] once [load_dotenv ()] has run. *)
Abbreviation environ := (gmap string string).

Definition required_env_vars : list string :=
  ["OPENWEATHER_KEY"; "OPENAI_API_KEY"].

Definition missing_vars (env : environ) : list string :=
  List.filter (fun var => negb (Py.truthy_str (env !! var))) required_env_vars.

(** What the module body builds: the paths for which it registers a handler
    with [@app.get], in the order of the source, and the key it hands to the
    OpenAI client.  The routes FastAPI gives every application of its own
    (the schema and documentation pages) are library code and are not
    listed. *)
Record app : Type := {
  endpoints : list string;
  openai_api_key : option string
}.

(** [FastAPI ()], before the module registers anything. *)
Definition FastAPI : app := {| endpoints := []; openai_api_key := None |}.

(** [@app.get (path)] put on a handler. *)
Definition app_get (path : string) (a : app) : app :=
  {| endpoints := endpoints a ++ [path];
     openai_api_key := openai_api_key a |}.

(** [openai.api_key = key]. *)
Definition set_api_key (key : option string) (a : app) : app :=
  {| endpoints := endpoints a; openai_api_key := key |}.

(** The module body: the check of the environment comes first, the
    application is only created, and the handlers registered, after it. *)
Definition main_py (env : environ) : outcome app :=
  if negb (bool_decide (missing_vars env = [])) then
    Raise (RuntimeError ("Missing required environment variables: "
                         +:+ Py.join ", " (missing_vars env)))
  else
    let app := FastAPI in
    let app := app_get "/" app in
    let app := app_get "/bmi" app in
    let app := app_get "/calories" app in
    let app := app_get "/weather" app in
    let app := set_api_key (env !! "OPENAI_API_KEY") app in
    let app := app_get "/ask-openai" app in
    let app := app_get "/hydration" app in
    let app := app_get "/sleep-score" app in
    Return app.

(** ** [GET /weather] *)

(** What the [requests] library hands back for the outbound call: the
    response object with the outcome of its two methods the handler calls. *)
Record Response : Type := {
  raise_for_status : outcome unit;
  json : outcome value
}.

(** The network: what [requests.get (url, timeout=10)] does for a URL. *)
Abbreviation requests_get_t := (string -> outcome Response).

(** The body of the [try] statement. *)
Definition get_weather_try (requests_get : requests_get_t) (city url : string)
  : outcome value :=
  response ← requests_get url;
  _ ← raise_for_status response;
  data ← json response;
  has_main ← Py.contains "main" data;
  has_both ← (if negb has_main then Return false else Py.contains "weather" data);
  if negb has_both then
    Raise (HTTPException 500 "Unexpected response format from OpenWeather API.")
  else
    main ← Py.getitem data "main";
    temp ← Py.getitem main "temp";
    weather ← Py.getitem data "weather";
    first ← Py.getitem0 weather;
    description ← Py.getitem first "description";
    Return (VDict [("city", VStr city);
                   ("temperature", temp);
                   ("description", description)]).

(** The [except] clauses, tried in order: [Timeout], then any other
    [RequestException], then any [Exception]. *)
Definition get_weather_except (e : exn) : outcome value :=
  match e with
  | Timeout _ =>
      Raise (HTTPException 504 "OpenWeather API request timed out.")
  | RequestException _ =>
      Raise (HTTPException 502 ("Bad Gateway: " +:+ Py.str e))
  | _ =>
      Raise (HTTPException 500 ("Internal Server Error: " +:+ Py.str e))
  end.

(** The URL of the outbound call. *)
Definition weather_url (city API_KEY : string) : string :=
  "https://api.openweathermap.org/data/2.5/weather?q=" +:+ city
  +:+ "&appid=" +:+ API_KEY +:+ "&units=metric".

Definition get_weather (env : environ) (requests_get : requests_get_t)
  (city : string) : outcome value :=
  let API_KEY := env !! "OPENWEATHER_KEY" in
  if negb (Py.truthy_str API_KEY) then
    Raise (HTTPException 500 "Missing OpenWeather API key.")
  else
    let url := weather_url city (default "" API_KEY) in
    match get_weather_try requests_get city url with
    | Return v => Return v
    | Raise e => get_weather_except e
    end.

(** ** [GET /ask-openai] *)

(** The OpenAI client: what [openai.ChatCompletion.create (model, messages)]
    does. *)
Abbreviation create_t := (string -> value -> outcome value).

(** The body of the [try] statement. *)
Definition ask_openai_try (create : create_t) (request : string)
  : outcome value :=
  response ← create "gpt-3.5-turbo"
               (VList [VDict [("role", VStr "user"); ("content", VStr request)]]);
  choices ← Py.get response "choices";
  bad ← (if negb (Py.truthy choices) then Return true
         else
           first ← Py.getitem0 choices;
           message ← Py.get first "message";
           Return (negb (Py.truthy message)));
  if (bad : bool) then
    Raise (HTTPException 500 "Unexpected response format from OpenAI API.")
  else
    first ← Py.getitem0 choices;
    message ← Py.getitem first "message";
    content ← Py.getitem message "content";
    Return (VDict [("response", content)]).

(** The [except] clauses, tried in order: [AuthenticationError], then any
    other [OpenAIError], then any [Exception]. *)
Definition ask_openai_except (e : exn) : outcome value :=
  match e with
  | AuthenticationError _ =>
      Raise (HTTPException 401 "Invalid OpenAI API key.")
  | OpenAIError _ =>
      Raise (HTTPException 502 ("Bad Gateway: " +:+ Py.str e))
  | _ =>
      Raise (HTTPException 500 ("Internal Server Error: " +:+ Py.str e))
  end.

Definition ask_openai (create : create_t) (request : string) : outcome value :=
  match ask_openai_try create request with
  | Return v => Return v
  | Raise e => ask_openai_except e
  end.

(** ** [GET /] *)

Definition read_root : outcome value :=
  Return (VDict [("message", VStr "Hello from Dockerized FastAPI!")]).

(** ** [GET /bmi] *)

(** [pow_2] is the C library's [pow (x, 2.0)], see [PyFloat.pow2]. *)
Definition calculate_bmi (pow_2 : float -> float) (weight height : float)
  : outcome value :=
  if (height <=? 0)%float || (weight <=? 0)%float then
    Raise (HTTPException 400 "Weight and height must be greater than zero.")
  else
    height ← (if (10 <? height)%float then PyFloat.truediv height 100
              else Return height);
    height2 ← PyFloat.pow2 pow_2 height;
    bmi ← PyFloat.truediv weight height2;
    Return (VDict [("bmi", VFloat (PyFloat.round2 bmi))]).

(** ** [GET /calories] *)

Definition met_values : gmap string float :=
  {[ "light" := 3.5%float; "moderate" := 5.0%float; "vigorous" := 8.0%float ]}.

(** [met_values.get (activity_level)] is [None] for a missing key, and
    [not met] holds for [None] and for a zero float. *)
Definition calculate_calories (weight duration : float) (activity_level : string)
  : outcome value :=
  if (duration <=? 0)%float || (weight <=? 0)%float then
    Raise (HTTPException 400 "Weight and duration must be greater than zero.")
  else
    match met_values !! activity_level with
    | None =>
        Raise (HTTPException 400
                 "Invalid activity level. Choose from light, moderate, or vigorous.")
    | Some met =>
        if (met =? 0)%float then
          Raise (HTTPException 400
                   "Invalid activity level. Choose from light, moderate, or vigorous.")
        else
          calories_burned ← PyFloat.truediv (met * weight * duration)%float 60;
          Return (VDict [("calories_burned",
                          VFloat (PyFloat.round2 calories_burned))])
    end.

(** The activity levels the table knows. *)
Definition known_level (activity_level : string) : Prop :=
  activity_level = "light" \/ activity_level = "moderate"
  \/ activity_level = "vigorous".

(** ** [GET /hydration] *)

Definition check_hydration (water_ml : Z) : outcome value :=
  if (water_ml <? 2000)%Z then
    Return (VDict [("status", VStr "Drink more water!");
                   ("advice", VStr "Aim for at least 2 liters per day.")])
  else if (2000 <=? water_ml)%Z && (water_ml <=? 3000)%Z then
    Return (VDict [("status", VStr "You're well hydrated!");
                   ("advice", VStr "Maintain this level of hydration.")])
  else
    Return (VDict [("status", VStr "Too much water!");
                   ("advice", VStr "Avoid overhydration.")]).

(** ** [GET /sleep-score] *)

Definition sleep_score (hours : float) : outcome value :=
  if (hours <? 6)%float then
    Return (VDict [("score", VInt 50); ("status", VStr "Too little sleep")])
  else if (6 <=? hours)%float && (hours <=? 8)%float then
    Return (VDict [("score", VInt 90); ("status", VStr "Healthy sleep")])
  else
    Return (VDict [("score", VInt 70); ("status", VStr "Too much sleep")]).

(** ** Reading outcomes *)

(** The HTTP status a handler's outcome carries when it raised an
    [HTTPException]. *)
Definition http_status {A : Type} (r : outcome A) : option Z :=
  match r with
  | Raise (HTTPException status_code _) => Some status_code
  | _ => None
  end.

(** The value a handler returned, if it did. *)
Definition returned {A : Type} (r : outcome A) : option A :=
  match r with
  | Return a => Some a
  | Raise _ => None
  end.

(** [d[key]] on a returned dictionary, when the key is there. *)
Definition field (key : string) (v : value) : option value :=
  match v with
  | VDict items => Py.dict_lookup key items
  | _ => None
  end.

(** The three payloads of [check_hydration] and of [sleep_score]. *)

Definition hydration_low : value :=
  VDict [("status", VStr "Drink more water!");
         ("advice", VStr "Aim for at least 2 liters per day.")].
Definition hydration_good : value :=
  VDict [("status", VStr "You're well hydrated!");
         ("advice", VStr "Maintain this level of hydration.")].
Definition hydration_high : value :=
  VDict [("status", VStr "Too much water!");
         ("advice", VStr "Avoid overhydration.")].

Definition sleep_short : value :=
  VDict [("score", VInt 50); ("status", VStr "Too little sleep")].
Definition sleep_healthy : value :=
  VDict [("score", VInt 90); ("status", VStr "Healthy sleep")].
Definition sleep_long : value :=
  VDict [("score", VInt 70); ("status", VStr "Too much sleep")].

(** ** Application-level exception handlers *)

(** The two handlers the module registers with the application.  Which
    exception is handed to which of them is decided by FastAPI; the functions
    below are what the module itself defines. *)

(** A [JSONResponse (status_code=..., content=...)]. *)
Record JSONResponse : Type := {
  status_code : Z;
  content : value
}.

(** The handler registered for [RequestValidationError]; [errors] is what
    [exc.errors ()] yields. *)
Definition validation_exception_handler (errors : value) : JSONResponse :=
  {| status_code := 422; content := VDict [("detail", errors)] |}.

(** The handler registered for [Exception]. *)
Definition global_exception_handler (exc : exn) : JSONResponse :=
  {| status_code := 500;
     content := VDict [("detail",
                        VStr ("Internal Server Error: " +:+ Py.str exc))] |}.

(** ** Names used by the properties below *)

(** The detail of the 500 that [get_weather] raises without a key. *)
Definition missing_key_detail : string := "Missing OpenWeather API key.".

(** The errors that looking into a decoded body can raise. *)
Definition lookup_error (e : exn) : Prop :=
  match e with
  | KeyError _ | IndexError _ | TypeError _ => True
  | _ => False
  end.

(** The one call the handler makes with a request. *)
Definition asked (create : create_t) (request : string) : outcome value :=
  create "gpt-3.5-turbo"
    (VList [VDict [("role", VStr "user"); ("content", VStr request)]]).

(** One step of a handler's body: a bind whose left side is known. *)
Ltac step := cbn [mbind outcome_bind].

(** ** Order and classes of floats *)

Section Floats.

Local Open Scope float_scope.

Lemma SFcompare_antisym (x y : spec_float) :
  SFcompare y x = option_map CompOpp (SFcompare x y).
Proof.
  destruct x as [sx|sx| |sx mx ex], y as [sy|sy| |sy my ey];
    try destruct sx; try destruct sy; try reflexivity; simpl;
    rewrite (Z.compare_antisym ex ey);
    change (Pos.compare_cont Eq my mx) with (my ?= mx)%positive;
    change (Pos.compare_cont Eq mx my) with (mx ?= my)%positive;
    rewrite (Pos.compare_antisym mx my);
    destruct (ex ?= ey)%Z; simpl; try reflexivity;
    destruct (mx ?= my)%positive; reflexivity.
Qed.

Lemma SFcompare_Lt_trans (x y z : spec_float) :
  SFcompare x y = Some Lt -> SFcompare y z = Some Lt -> SFcompare x z = Some Lt.
Proof.
  destruct x as [sx|sx| |sx mx ex], y as [sy|sy| |sy my ey],
           z as [sz|sz| |sz mz ez];
    try destruct sx; try destruct sy; try destruct sz;
    simpl; try congruence;
    change (Pos.compare_cont Eq mx my) with (mx ?= my)%positive;
    change (Pos.compare_cont Eq my mz) with (my ?= mz)%positive;
    change (Pos.compare_cont Eq mx mz) with (mx ?= mz)%positive;
    destruct (Z.compare_spec ex ey), (Z.compare_spec ey ez),
             (Z.compare_spec ex ez); try congruence; try lia;
    destruct (Pos.compare_spec mx my), (Pos.compare_spec my mz),
             (Pos.compare_spec mx mz); simpl; try congruence; try lia.
Qed.

Lemma ltb_leb_false (x y : float) : (x <? y) = true -> (y <=? x) = false.
Proof.
  rewrite ltb_spec, leb_spec. unfold SFltb, SFleb.
  rewrite (SFcompare_antisym (Prim2SF x) (Prim2SF y)).
  destruct (SFcompare (Prim2SF x) (Prim2SF y)) as [[]|]; simpl; congruence.
Qed.

Lemma leb_ltb_false (x y : float) : (x <=? y) = true -> (y <? x) = false.
Proof.
  rewrite ltb_spec, leb_spec. unfold SFltb, SFleb.
  rewrite (SFcompare_antisym (Prim2SF x) (Prim2SF y)).
  destruct (SFcompare (Prim2SF x) (Prim2SF y)) as [[]|]; simpl; congruence.
Qed.

Lemma ltb_trans (x y z : float) :
  (x <? y) = true -> (y <? z) = true -> (x <? z) = true.
Proof.
  rewrite !ltb_spec. unfold SFltb. intros Hxy Hyz.
  rewrite (SFcompare_Lt_trans (Prim2SF x) (Prim2SF y) (Prim2SF z)).
  - reflexivity.
  - destruct (SFcompare (Prim2SF x) (Prim2SF y)) as [[]|]; congruence.
  - destruct (SFcompare (Prim2SF y) (Prim2SF z)) as [[]|]; congruence.
Qed.

Lemma SFcompare_refl (x : spec_float) :
  SFcompare x x = match x with S754_nan => None | _ => Some Eq end.
Proof.
  destruct x as [s|s| |s m e]; try destruct s; try reflexivity; simpl;
    rewrite Z.compare_refl;
    change (Pos.compare_cont Eq m m) with (m ?= m)%positive;
    rewrite Pos.compare_refl; reflexivity.
Qed.

Lemma is_nan_spec (x : float) :
  is_nan x = match Prim2SF x with S754_nan => true | _ => false end.
Proof.
  unfold is_nan. rewrite FloatAxioms.eqb_spec. unfold SFeqb.
  rewrite SFcompare_refl. destruct (Prim2SF x); reflexivity.
Qed.

Lemma is_infinity_spec (x : float) :
  is_infinity x = match Prim2SF x with S754_infinity _ => true | _ => false end.
Proof.
  unfold is_infinity. rewrite FloatAxioms.eqb_spec, abs_spec.
  change (Prim2SF infinity) with (S754_infinity false).
  destruct (Prim2SF x) as [s|s| |s m e]; try destruct s; reflexivity.
Qed.

Lemma eqb_0_spec (x : float) :
  (x =? 0) = match Prim2SF x with S754_zero _ => true | _ => false end.
Proof.
  rewrite FloatAxioms.eqb_spec. change (Prim2SF 0) with (S754_zero false).
  destruct (Prim2SF x) as [s|s| |s m e]; try destruct s; reflexivity.
Qed.

Lemma ltb_0_spec (x : float) :
  (x <? 0) = match Prim2SF x with
             | S754_infinity s | S754_finite s _ _ => s
             | _ => false
             end.
Proof.
  rewrite ltb_spec. change (Prim2SF 0) with (S754_zero false).
  destruct (Prim2SF x) as [s|s| |s m e]; try destruct s; reflexivity.
Qed.

Lemma SFeqb_positive_finite (m m' : positive) (e e' : Z) :
  SFeqb (S754_finite false m e) (S754_finite false m' e') = true ->
  m = m' /\ e = e'.
Proof.
  unfold SFeqb. simpl.
  destruct (Z.compare_spec e e'); try discriminate.
  change (Pos.compare_cont Eq m m') with (m ?= m')%positive.
  destruct (Pos.compare_spec m m'); try discriminate. auto.
Qed.

Lemma mul_sign_irrelevant (s : bool) (m : positive) (e : Z) :
  SF64mul (S754_finite s m e) (S754_finite s m e)
  = SF64mul (S754_finite false m e) (S754_finite false m e).
Proof. destruct s; reflexivity. Qed.

(** Whatever the C library's [pow] returns, [x ** 2] raises nothing but the
    [OverflowError]. *)
Lemma pow2_raises (pow_2 : float -> float) (x : float) (e : exn) :
  PyFloat.pow2 pow_2 x = Raise e ->
  e = OverflowError "(34, 'Numerical result out of range')".
Proof.
  unfold PyFloat.pow2.
  repeat match goal with
         | |- context [if ?b then _ else _] => destruct b
         end; try discriminate.
  intros [= <-]. reflexivity.
Qed.

(** With a correctly rounded [pow], [x ** 2] is the IEEE square of [x],
    unless [x] is finite and its square is not. *)
Lemma pow2_spec (x : float) :
  PyFloat.pow2 PyFloat.ieee_square x
  = if PyFloat.square_overflows x
    then Raise (OverflowError "(34, 'Numerical result out of range')")
    else Return (x * x).
Proof.
  unfold PyFloat.pow2, PyFloat.ieee_square, PyFloat.square_overflows,
    is_finite.
  rewrite (is_nan_spec x), (is_infinity_spec x), (eqb_0_spec x), (ltb_0_spec x).
  destruct (Prim2SF x) as [s|s| |s m e] eqn:Hx; cbn [orb negb andb].
  - (* zero *)
    replace (x * x) with 0; [rewrite is_infinity_spec; reflexivity |].
    apply Prim2SF_inj. rewrite mul_spec, Hx. destruct s; reflexivity.
  - (* infinity *)
    f_equal. apply Prim2SF_inj. rewrite abs_spec, mul_spec, Hx.
    destruct s; reflexivity.
  - (* nan *)
    f_equal. apply Prim2SF_inj. rewrite mul_spec, Hx. reflexivity.
  - (* finite *)
    set (iv := if s then - x else x).
    assert (Hiv : Prim2SF iv = S754_finite false m e).
    { unfold iv. destruct s; [rewrite opp_spec |]; rewrite Hx; reflexivity. }
    assert (Hsq : iv * iv = x * x).
    { apply Prim2SF_inj. rewrite !mul_spec, Hiv, Hx.
      symmetry. apply mul_sign_irrelevant. }
    rewrite Hsq.
    destruct (iv =? 1) eqn:Hone; [| reflexivity].
    rewrite FloatAxioms.eqb_spec, Hiv in Hone.
    assert (H1 : x * x = 1).
    { rewrite <- Hsq. apply Prim2SF_inj. rewrite mul_spec, Hiv.
      revert Hone.
      change (Prim2SF 1) with (S754_finite false 4503599627370496 (-52)).
      intros Hone. apply SFeqb_positive_finite in Hone as [-> ->].
      vm_compute. reflexivity. }
    rewrite H1. reflexivity.
Qed.

End Floats.

(** ** Properties of [calculate_bmi] *)

Section BMI.

Local Open Scope float_scope.

Lemma bmi_guard_passes (weight height : float) :
  (0 <? weight) = true -> (0 <? height) = true ->
  (height <=? 0) || (weight <=? 0) = false.
Proof.
  intros Hw Hh.
  rewrite (ltb_leb_false _ _ Hw), (ltb_leb_false _ _ Hh). reflexivity.
Qed.

Lemma truediv_nonzero (a b : float) :
  (b =? 0) = false -> PyFloat.truediv a b = Return (a / b).
Proof. intros Hb. unfold PyFloat.truediv. rewrite Hb. reflexivity. Qed.

(** The handler, with the two divisions resolved. *)
Lemma calculate_bmi_unfold (pow_2 : float -> float) (weight height : float) :
  calculate_bmi pow_2 weight height
  = if (height <=? 0) || (weight <=? 0) then
      Raise (HTTPException 400 "Weight and height must be greater than zero.")
    else
      match PyFloat.pow2 pow_2 (if 10 <? height then height / 100 else height)
      with
      | Raise e => Raise e
      | Return sq =>
          if sq =? 0 then Raise (ZeroDivisionError "float division by zero")
          else Return (VDict [("bmi", VFloat (PyFloat.round2 (weight / sq)))])
      end.
Proof.
  unfold calculate_bmi.
  destruct ((height <=? 0) || (weight <=? 0)); [reflexivity |].
  assert (Hm : (if 10 <? height then PyFloat.truediv height 100
                else Return height)
               = Return (if 10 <? height then height / 100 else height)).
  { destruct (10 <? height); [apply truediv_nonzero |]; reflexivity. }
  rewrite Hm. step.
  destruct (PyFloat.pow2 pow_2 _) as [sq | e]; [| reflexivity].
  step. unfold PyFloat.truediv. destruct (sq =? 0); reflexivity.
Qed.

(** C1, as the code has it: for weight > 0 and height > 10 the handler
    divides the height by 100, for weight > 0 and height in (0, 10] it uses
    the height as it is; whenever [** 2] on that height in metres evaluates
    (no [OverflowError]) to a float [sq] that is not zero, the handler
    returns [bmi = round (weight / sq, 2)].  This holds whatever the C
    library's [pow] is. *)
Theorem calculate_bmi_formula
  (pow_2 : float -> float) (weight height sq : float) :
  (0 <? weight) = true ->
  ((10 <? height) = true ->
   PyFloat.pow2 pow_2 (height / 100) = Return sq -> (sq =? 0) = false ->
   calculate_bmi pow_2 weight height
   = Return (VDict [("bmi", VFloat (PyFloat.round2 (weight / sq)))]))
  /\
  ((0 <? height) = true -> (height <=? 10) = true ->
   PyFloat.pow2 pow_2 height = Return sq -> (sq =? 0) = false ->
   calculate_bmi pow_2 weight height
   = Return (VDict [("bmi", VFloat (PyFloat.round2 (weight / sq)))])).
Proof.
  intros Hw. split.
  - intros Hcm Hsq Hnz.
    assert (Hh : (0 <? height) = true)
      by (apply (ltb_trans 0 10 height); [reflexivity | exact Hcm]).
    rewrite calculate_bmi_unfold, (bmi_guard_passes _ _ Hw Hh), Hcm, Hsq, Hnz.
    reflexivity.
  - intros Hh Hm Hsq Hnz.
    rewrite calculate_bmi_unfold, (bmi_guard_passes _ _ Hw Hh),
      (leb_ltb_false _ _ Hm), Hsq, Hnz.
    reflexivity.
Qed.

Lemma calculate_bmi_formula_witness :
  (0 <? 70) = true /\
  ((10 <? 175) = true /\
   PyFloat.pow2 PyFloat.ieee_square (175 / 100) = Return 3.0625 /\
   (3.0625 =? 0) = false /\
   calculate_bmi PyFloat.ieee_square 70 175
   = Return (VDict [("bmi", VFloat 22.86)]))
  /\
  ((0 <? 1.75) = true /\ (1.75 <=? 10) = true /\
   PyFloat.pow2 PyFloat.ieee_square 1.75 = Return 3.0625 /\
   (3.0625 =? 0) = false /\
   calculate_bmi PyFloat.ieee_square 70 1.75
   = Return (VDict [("bmi", VFloat 22.86)])).
Proof.
  split; [reflexivity |]. split.
  - repeat (split; [reflexivity |]).
    exact (proj1 (calculate_bmi_formula PyFloat.ieee_square 70 175 3.0625
                    eq_refl) eq_refl eq_refl eq_refl).
  - repeat (split; [reflexivity |]).
    exact (proj2 (calculate_bmi_formula PyFloat.ieee_square 70 1.75 3.0625
                    eq_refl) eq_refl eq_refl eq_refl eq_refl).
Defined.

(** C1 as stated fails: a positive height whose square underflows to zero
    makes the division raise, and a height (in centimetres) whose square
    overflows makes the power raise; no [bmi] is returned.  This is so for
    every C library whose [pow] gives zero for the square of 1e-200 and
    infinity for the square of 1e198, and in particular for the correctly
    rounded one. *)
Lemma calculate_bmi_not_total :
  ((0 <? 70) = true /\ (0 <? 1e-200) = true /\ (1e-200 <=? 10) = true /\
   calculate_bmi PyFloat.ieee_square 70 1e-200
   = Raise (ZeroDivisionError "float division by zero")
   /\ returned (calculate_bmi PyFloat.ieee_square 70 1e-200) = None
   /\ (forall pow_2 : float -> float,
          (pow_2 1e-200 =? 0) = true ->
          calculate_bmi pow_2 70 1e-200
          = Raise (ZeroDivisionError "float division by zero")))
  /\
  ((0 <? 70) = true /\ (10 <? 1e200) = true /\
   calculate_bmi PyFloat.ieee_square 70 1e200
   = Raise (OverflowError "(34, 'Numerical result out of range')")
   /\ returned (calculate_bmi PyFloat.ieee_square 70 1e200) = None
   /\ (forall pow_2 : float -> float,
          is_infinity (pow_2 (1e200 / 100)) = true ->
          calculate_bmi pow_2 70 1e200
          = Raise (OverflowError "(34, 'Numerical result out of range')"))).
Proof.
  split; repeat (split; [reflexivity |]).
  - intros pow_2 Hzero. rewrite calculate_bmi_unfold.
    change ((1e-200 <=? 0) || (70 <=? 0)) with false.
    change (10 <? 1e-200) with false. cbv iota.
    unfold PyFloat.pow2.
    change (is_nan 1e-200) with false. change (is_infinity 1e-200) with false.
    change (1e-200 =? 0) with false. change (1e-200 <? 0) with false.
    cbv iota zeta. change (1e-200 =? 1) with false. cbv iota.
    destruct (is_infinity (pow_2 1e-200)) eqn:Hinf.
    + rewrite is_infinity_spec in Hinf. rewrite eqb_0_spec in Hzero.
      destruct (Prim2SF (pow_2 1e-200)); discriminate.
    + rewrite Hzero. reflexivity.
  - intros pow_2 Hinf. rewrite calculate_bmi_unfold.
    change ((1e200 <=? 0) || (70 <=? 0)) with false.
    change (10 <? 1e200) with true. cbv iota.
    unfold PyFloat.pow2.
    change (is_nan (1e200 / 100)) with false.
    change (is_infinity (1e200 / 100)) with false.
    change (1e200 / 100 =? 0) with false.
    change (1e200 / 100 <? 0) with false.
    cbv iota zeta. change (1e200 / 100 =? 1) with false. cbv iota.
    rewrite Hinf. reflexivity.
Qed.

(** C5: the handler raises an HTTP 400 exactly when weight <= 0 or
    height <= 0, and then returns no value. *)
Theorem calculate_bmi_400_iff (pow_2 : float -> float) (weight height : float) :
  (http_status (calculate_bmi pow_2 weight height) = Some 400%Z
   <-> (weight <=? 0) = true \/ (height <=? 0) = true)
  /\
  ((weight <=? 0) = true \/ (height <=? 0) = true ->
   calculate_bmi pow_2 weight height
   = Raise (HTTPException 400 "Weight and height must be greater than zero.")).
Proof.
  assert (Hbad : (weight <=? 0) = true \/ (height <=? 0) = true ->
                 calculate_bmi pow_2 weight height
                 = Raise (HTTPException 400
                            "Weight and height must be greater than zero.")).
  { intros H. unfold calculate_bmi.
    replace ((height <=? 0) || (weight <=? 0)) with true; [reflexivity |].
    symmetry. apply orb_true_iff. tauto. }
  split; [split | exact Hbad].
  - unfold calculate_bmi.
    destruct (height <=? 0) eqn:Hh; [tauto |].
    destruct (weight <=? 0) eqn:Hw; [tauto |].
    cbn [orb]. unfold PyFloat.truediv, PyFloat.pow2.
    repeat match goal with
           | |- context [if ?b then _ else _] => destruct b
           | _ => progress cbn [mbind outcome_bind http_status]
           end; discriminate.
  - intros H. rewrite (Hbad H). reflexivity.
Qed.

End BMI.

(** ** Properties of [calculate_calories] *)

Section Calories.

Local Open Scope float_scope.

Lemma met_values_unknown (activity_level : string) :
  ~ known_level activity_level -> met_values !! activity_level = None.
Proof.
  unfold known_level, met_values. intros H.
  rewrite !lookup_insert_ne by (intros <-; tauto).
  apply lookup_singleton_ne. intros <-. tauto.
Qed.

Lemma calories_known (weight duration met : float) (activity_level : string) :
  (0 <? weight) = true -> (0 <? duration) = true ->
  met_values !! activity_level = Some met -> (met =? 0) = false ->
  calculate_calories weight duration activity_level
  = Return (VDict [("calories_burned",
                    VFloat (PyFloat.round2 (met * weight * duration / 60)))]).
Proof.
  intros Hw Hd Hmet Hnz. unfold calculate_calories.
  rewrite (ltb_leb_false _ _ Hw), (ltb_leb_false _ _ Hd), Hmet, Hnz.
  reflexivity.
Qed.

(** C2: for weight > 0, duration > 0 and a known activity level the
    handler returns [calories_burned = round (met * weight * duration / 60, 2)]
    with met 3.5 for light, 5.0 for moderate and 8.0 for vigorous. *)
Theorem calculate_calories_formula (weight duration : float) :
  (0 <? weight) = true -> (0 <? duration) = true ->
  calculate_calories weight duration "light"
  = Return (VDict [("calories_burned",
                    VFloat (PyFloat.round2 (3.5 * weight * duration / 60)))])
  /\ calculate_calories weight duration "moderate"
  = Return (VDict [("calories_burned",
                    VFloat (PyFloat.round2 (5.0 * weight * duration / 60)))])
  /\ calculate_calories weight duration "vigorous"
  = Return (VDict [("calories_burned",
                    VFloat (PyFloat.round2 (8.0 * weight * duration / 60)))]).
Proof.
  intros Hw Hd. repeat split; apply calories_known; auto.
Qed.

Lemma calculate_calories_formula_witness :
  (0 <? 70) = true /\ (0 <? 30) = true /\
  calculate_calories 70 30 "light"
  = Return (VDict [("calories_burned", VFloat 122.5)])
  /\ calculate_calories 70 30 "moderate"
  = Return (VDict [("calories_burned", VFloat 175)])
  /\ calculate_calories 70 30 "vigorous"
  = Return (VDict [("calories_burned", VFloat 280)]).
Proof.
  split; [reflexivity |]. split; [reflexivity |].
  exact (calculate_calories_formula 70 30 eq_refl eq_refl).
Defined.

(** C6: the handler raises an HTTP 400 exactly when weight <= 0, or
    duration <= 0, or the activity level is none of the three known ones;
    with a nonpositive weight or duration the rejection is the one for
    weight and duration, whatever the activity level is. *)
Theorem calculate_calories_400_iff
  (weight duration : float) (activity_level : string) :
  (http_status (calculate_calories weight duration activity_level) = Some 400%Z
   <-> (weight <=? 0) = true \/ (duration <=? 0) = true
       \/ ~ known_level activity_level)
  /\
  ((weight <=? 0) = true \/ (duration <=? 0) = true ->
   calculate_calories weight duration activity_level
   = Raise (HTTPException 400 "Weight and duration must be greater than zero.")).
Proof.
  assert (Hbad : (weight <=? 0) = true \/ (duration <=? 0) = true ->
                 calculate_calories weight duration activity_level
                 = Raise (HTTPException 400
                            "Weight and duration must be greater than zero.")).
  { intros H. unfold calculate_calories.
    replace ((duration <=? 0) || (weight <=? 0)) with true; [reflexivity |].
    symmetry. apply orb_true_iff. tauto. }
  split; [split | exact Hbad].
  - unfold calculate_calories.
    destruct (duration <=? 0) eqn:Hd; [tauto |].
    destruct (weight <=? 0) eqn:Hw; [tauto |].
    cbn [orb]. intros H. right. right. intros [-> | [-> | ->]];
      vm_compute in H; discriminate.
  - intros [H | [H | H]]; [rewrite Hbad by tauto; reflexivity .. |].
    unfold calculate_calories.
    destruct (_ || _); [reflexivity |].
    rewrite (met_values_unknown _ H). reflexivity.
Qed.

End Calories.

(** ** Properties of [check_hydration] and [sleep_score] *)

Section Thresholds.

Lemma check_hydration_cases (water_ml : Z) :
  ((water_ml < 2000)%Z -> check_hydration water_ml = Return hydration_low)
  /\ ((2000 <= water_ml <= 3000)%Z ->
      check_hydration water_ml = Return hydration_good)
  /\ ((3000 < water_ml)%Z -> check_hydration water_ml = Return hydration_high).
Proof.
  unfold check_hydration.
  destruct (Z.ltb_spec water_ml 2000), (Z.leb_spec 2000 water_ml),
           (Z.leb_spec water_ml 3000); cbn [andb];
    repeat split; intros; try lia; reflexivity.
Qed.

(** C3, as the code has it: below 2000 ml the status is "Drink more
    water!", from 2000 to 3000 ml inclusive it is "You're well hydrated!",
    above 3000 ml it is "Too much water!", each with its fixed advice; 1999,
    2000 and 3001 fall in the three ranges in turn. *)
Theorem check_hydration_thresholds (water_ml : Z) :
  (((water_ml < 2000)%Z -> check_hydration water_ml = Return hydration_low)
   /\ ((2000 <= water_ml <= 3000)%Z ->
       check_hydration water_ml = Return hydration_good)
   /\ ((3000 < water_ml)%Z -> check_hydration water_ml = Return hydration_high))
  /\ field "status" hydration_low = Some (VStr "Drink more water!")
  /\ field "status" hydration_good = Some (VStr "You're well hydrated!")
  /\ field "status" hydration_high = Some (VStr "Too much water!")
  /\ check_hydration 1999 = Return hydration_low
  /\ check_hydration 2000 = Return hydration_good
  /\ check_hydration 3001 = Return hydration_high.
Proof.
  split; [apply check_hydration_cases |]. repeat split; reflexivity.
Qed.

(** C3 as stated fails: at 2000 ml the status is not the string "well
    hydrated". *)
Lemma check_hydration_2000_status :
  (2000 <= 2000 <= 3000)%Z
  /\ (returned (check_hydration 2000) ≫= field "status")
     = Some (VStr "You're well hydrated!")
  /\ (returned (check_hydration 2000) ≫= field "status")
     <> Some (VStr "well hydrated").
Proof. split; [lia |]. split; [reflexivity | discriminate]. Qed.

Local Open Scope float_scope.

Lemma sleep_score_cases (hours : float) :
  ((hours <? 6) = true -> sleep_score hours = Return sleep_short)
  /\ ((6 <=? hours) = true /\ (hours <=? 8) = true ->
      sleep_score hours = Return sleep_healthy)
  /\ ((8 <? hours) = true -> sleep_score hours = Return sleep_long).
Proof.
  unfold sleep_score. repeat split.
  - intros ->. reflexivity.
  - intros [H6 H8]. rewrite (leb_ltb_false _ _ H6), H6, H8. reflexivity.
  - intros H8.
    assert (H6 : (6 <? hours) = true)
      by (apply (ltb_trans 6 8 hours); [reflexivity | exact H8]).
    rewrite (ltb_leb_false _ _ H8), andb_false_r.
    destruct (hours <? 6) eqn:Hlt; [| reflexivity].
    pose proof (ltb_trans _ _ _ H6 Hlt) as Habs. discriminate Habs.
Qed.

(** C4: below 6 hours the score is 50, from 6 to 8 hours inclusive it is
    90, above 8 hours it is 70, each with its fixed status string; 5, 7 and
    9 hours fall in the three ranges in turn. *)
Theorem sleep_score_thresholds (hours : float) :
  (((hours <? 6) = true -> sleep_score hours = Return sleep_short)
   /\ ((6 <=? hours) = true /\ (hours <=? 8) = true ->
       sleep_score hours = Return sleep_healthy)
   /\ ((8 <? hours) = true -> sleep_score hours = Return sleep_long))
  /\ field "score" sleep_short = Some (VInt 50)
  /\ field "score" sleep_healthy = Some (VInt 90)
  /\ field "score" sleep_long = Some (VInt 70)
  /\ sleep_score 5 = Return sleep_short
  /\ sleep_score 7 = Return sleep_healthy
  /\ sleep_score 9 = Return sleep_long.
Proof.
  split; [apply sleep_score_cases |]. repeat split; reflexivity.
Qed.

(** C9: neither handler validates its input.  Every integer, and every
    float (negative numbers, zeros, infinities and NaN included), gets one
    of the three fixed payloads and nothing is raised; every amount below
    2000 ml gets the "Drink more water!" payload and every duration below 6
    hours gets score 50. *)
Theorem hydration_sleep_total (water_ml : Z) (hours : float) :
  (check_hydration water_ml = Return hydration_low
   \/ check_hydration water_ml = Return hydration_good
   \/ check_hydration water_ml = Return hydration_high)
  /\ (sleep_score hours = Return sleep_short
      \/ sleep_score hours = Return sleep_healthy
      \/ sleep_score hours = Return sleep_long)
  /\ ((water_ml < 2000)%Z ->
      check_hydration water_ml = Return hydration_low
      /\ field "status" hydration_low = Some (VStr "Drink more water!"))
  /\ ((hours <? 6) = true ->
      sleep_score hours = Return sleep_short
      /\ field "score" sleep_short = Some (VInt 50))
  /\ check_hydration 0 = Return hydration_low
  /\ check_hydration (-250) = Return hydration_low
  /\ sleep_score 0 = Return sleep_short
  /\ sleep_score (-3) = Return sleep_short.
Proof.
  split; [| split; [| split; [| split]]].
  - unfold check_hydration.
    destruct (_ <? _)%Z; [tauto |]. destruct (_ && _); tauto.
  - unfold sleep_score.
    destruct (hours <? 6); [tauto |]. destruct (_ && _); tauto.
  - intros H. split; [apply check_hydration_cases; exact H | reflexivity].
  - intros H. split; [apply sleep_score_cases; exact H | reflexivity].
  - repeat split; reflexivity.
Qed.

End Thresholds.

(** ** Properties of the module body *)

Section Startup.

Lemma missing_vars_complete (env : environ) (var : string) :
  In var required_env_vars -> env !! var = None -> In var (missing_vars env).
Proof.
  intros Hin Hnone. unfold missing_vars. apply filter_In. split; [exact Hin |].
  rewrite Hnone. reflexivity.
Qed.

Lemma missing_vars_sound (env : environ) (var : string) :
  In var (missing_vars env) ->
  In var required_env_vars /\ Py.truthy_str (env !! var) = false.
Proof.
  unfold missing_vars. rewrite filter_In. intros [Hin Hfalsy].
  split; [exact Hin |]. apply negb_true_iff. exact Hfalsy.
Qed.

(** C8: when one of the two required credentials is absent from the
    environment, the module body raises a [RuntimeError] whose text lists
    the missing variables (every absent one, and only required variables
    that are absent or empty); the application and its routes are not
    created. *)
Theorem main_py_requires_credentials (env : environ) :
  env !! "OPENWEATHER_KEY" = None \/ env !! "OPENAI_API_KEY" = None ->
  main_py env
  = Raise (RuntimeError ("Missing required environment variables: "
                         +:+ Py.join ", " (missing_vars env)))
  /\ returned (main_py env) = None
  /\ (forall var, In var required_env_vars -> env !! var = None ->
                  In var (missing_vars env))
  /\ (forall var, In var (missing_vars env) ->
                  In var required_env_vars
                  /\ Py.truthy_str (env !! var) = false).
Proof.
  intros Habsent.
  assert (Hne : missing_vars env <> []).
  { destruct Habsent as [H | H];
      [pose proof (missing_vars_complete env "OPENWEATHER_KEY") as Hin
      |pose proof (missing_vars_complete env "OPENAI_API_KEY") as Hin];
      intros Hnil; rewrite Hnil in Hin; apply Hin; simpl; auto. }
  assert (Hraise : main_py env
                   = Raise (RuntimeError
                              ("Missing required environment variables: "
                               +:+ Py.join ", " (missing_vars env)))).
  { unfold main_py. rewrite bool_decide_eq_false_2 by exact Hne. reflexivity. }
  split; [exact Hraise |]. split.
  - rewrite Hraise. reflexivity.
  - split; intros var; [apply missing_vars_complete | apply missing_vars_sound].
Qed.

Lemma main_py_requires_credentials_witness :
  ({[ "OPENAI_API_KEY" := "sk-1" ]} : environ) !! "OPENWEATHER_KEY" = None
  /\ main_py {[ "OPENAI_API_KEY" := "sk-1" ]}
     = Raise (RuntimeError
                "Missing required environment variables: OPENWEATHER_KEY").
Proof.
  split; [reflexivity |].
  exact (proj1 (main_py_requires_credentials {[ "OPENAI_API_KEY" := "sk-1" ]}
                  (or_introl eq_refl))).
Defined.

End Startup.

(** ** Properties of [get_weather] and [ask_openai] *)

Definition weather_shape_detail : string :=
  "Unexpected response format from OpenWeather API.".

Definition openai_shape_detail : string :=
  "Unexpected response format from OpenAI API.".

(** Sample inputs: an environment with both credentials, a body of the
    expected shape, and a network that answers every URL with status 200 and
    the given outcome of [json ()]. *)
Definition sample_env : environ :=
  {[ "OPENWEATHER_KEY" := "k1"; "OPENAI_API_KEY" := "k2" ]}.

Definition sample_body : value :=
  VDict [("main", VDict [("temp", VFloat 21.5)]);
         ("weather", VList [VDict [("description", VStr "clear sky")]])].

Definition answering (body : outcome value) : requests_get_t :=
  fun _ => Return {| raise_for_status := Return (); json := body |}.

Section Proxies.

Lemma get_weather_with_key
  (env : environ) (get : requests_get_t) (city key : string) :
  env !! "OPENWEATHER_KEY" = Some key -> key <> "" ->
  get_weather env get city
  = match get_weather_try get city (weather_url city key) with
    | Return v => Return v
    | Raise e => get_weather_except e
    end.
Proof.
  intros Hkey Hne. unfold get_weather. rewrite Hkey.
  cbn [Py.truthy_str default]. apply String.eqb_neq in Hne. rewrite Hne.
  reflexivity.
Qed.

Lemma dict_lookup_contains (key : string) (items : list (string * value)) :
  Py.contains key (VDict items)
  = Return (bool_decide (is_Some (Py.dict_lookup key items))).
Proof. reflexivity. Qed.

Lemma getitem_dict (key : string) (items : list (string * value)) (v : value) :
  Py.dict_lookup key items = Some v -> Py.getitem (VDict items) key = Return v.
Proof. intros H. unfold Py.getitem. rewrite H. reflexivity. Qed.

(** C7: with the API key configured, a timeout of the outbound call gives
    504; any other failure of [requests] (in the call itself or reported by
    [raise_for_status]) gives 502 with the upstream text in the detail; a
    decoded body without "main" or without "weather" gives 500; a body of the
    expected shape gives the city, [main.temp] and [weather[0].description]. *)
Theorem get_weather_outcomes (env : environ) (city key : string) :
  env !! "OPENWEATHER_KEY" = Some key -> key <> "" ->
  (forall (get : requests_get_t) msg,
      get (weather_url city key) = Raise (Timeout msg) ->
      get_weather env get city
      = Raise (HTTPException 504 "OpenWeather API request timed out."))
  /\ (forall (get : requests_get_t) msg,
         get (weather_url city key) = Raise (RequestException msg) ->
         get_weather env get city
         = Raise (HTTPException 502 ("Bad Gateway: " +:+ msg)))
  /\ (forall (get : requests_get_t) r msg,
         get (weather_url city key) = Return r ->
         raise_for_status r = Raise (RequestException msg) ->
         get_weather env get city
         = Raise (HTTPException 502 ("Bad Gateway: " +:+ msg)))
  /\ (forall (get : requests_get_t) r items,
         get (weather_url city key) = Return r ->
         raise_for_status r = Return () ->
         json r = Return (VDict items) ->
         Py.dict_lookup "main" items = None
         \/ Py.dict_lookup "weather" items = None ->
         http_status (get_weather env get city) = Some 500%Z)
  /\ (forall (get : requests_get_t) r items main temp first rest description,
         get (weather_url city key) = Return r ->
         raise_for_status r = Return () ->
         json r = Return (VDict items) ->
         Py.dict_lookup "main" items = Some main ->
         Py.getitem main "temp" = Return temp ->
         Py.dict_lookup "weather" items = Some (VList (first :: rest)) ->
         Py.getitem first "description" = Return description ->
         get_weather env get city
         = Return (VDict [("city", VStr city);
                          ("temperature", temp);
                          ("description", description)])).
Proof.
  intros Hkey Hne. repeat split.
  - intros get msg Hget.
    rewrite (get_weather_with_key _ _ _ _ Hkey Hne).
    unfold get_weather_try. rewrite Hget. reflexivity.
  - intros get msg Hget.
    rewrite (get_weather_with_key _ _ _ _ Hkey Hne).
    unfold get_weather_try. rewrite Hget. reflexivity.
  - intros get r msg Hget Hstatus.
    rewrite (get_weather_with_key _ _ _ _ Hkey Hne).
    unfold get_weather_try. rewrite Hget. step.
    rewrite Hstatus. reflexivity.
  - intros get r items Hget Hstatus Hjson Hmissing.
    rewrite (get_weather_with_key _ _ _ _ Hkey Hne).
    unfold get_weather_try. rewrite Hget. step.
    rewrite Hstatus. step. rewrite Hjson.
    step. rewrite !dict_lookup_contains.
    step.
    destruct Hmissing as [H | H]; rewrite H.
    + rewrite bool_decide_eq_false_2 by (intros [? ?]; discriminate).
      reflexivity.
    + destruct (bool_decide _); cbn [negb mbind outcome_bind];
        [rewrite bool_decide_eq_false_2 by (intros [? ?]; discriminate) |];
        reflexivity.
  - intros get r items main temp first rest description
      Hget Hstatus Hjson Hmain Htemp Hweather Hdescription.
    rewrite (get_weather_with_key _ _ _ _ Hkey Hne).
    unfold get_weather_try. rewrite Hget. step.
    rewrite Hstatus. step. rewrite Hjson.
    step. rewrite !dict_lookup_contains.
    step. rewrite Hmain.
    rewrite bool_decide_eq_true_2 by eauto. cbn [negb mbind outcome_bind].
    rewrite Hweather.
    rewrite bool_decide_eq_true_2 by eauto. cbn [negb mbind outcome_bind].
    rewrite (getitem_dict _ _ _ Hmain). step.
    rewrite Htemp. step.
    rewrite (getitem_dict _ _ _ Hweather). cbn [mbind outcome_bind Py.getitem0].
    rewrite Hdescription. reflexivity.
Qed.

Lemma get_weather_outcomes_witness :
  sample_env !! "OPENWEATHER_KEY" = Some "k1" /\ "k1" <> ""
  /\ get_weather sample_env (fun _ => Raise (Timeout "Read timed out.")) "Paris"
     = Raise (HTTPException 504 "OpenWeather API request timed out.")
  /\ get_weather sample_env
       (fun _ => Raise (RequestException "Connection refused")) "Paris"
     = Raise (HTTPException 502 "Bad Gateway: Connection refused")
  /\ http_status
       (get_weather sample_env
          (answering (Return (VDict [("cod", VInt 200)]))) "Paris")
     = Some 500%Z
  /\ get_weather sample_env (answering (Return sample_body)) "Paris"
     = Return (VDict [("city", VStr "Paris");
                      ("temperature", VFloat 21.5);
                      ("description", VStr "clear sky")]).
Proof.
  assert (Hne : "k1" <> "") by discriminate.
  destruct (get_weather_outcomes sample_env "Paris" "k1" eq_refl Hne)
    as (Htimeout & Hfail & _ & Hshape & Hok).
  split; [reflexivity |]. split; [exact Hne |]. split; [| split; [| split]].
  - exact (Htimeout _ "Read timed out." eq_refl).
  - exact (Hfail _ "Connection refused" eq_refl).
  - exact (Hshape (answering (Return (VDict [("cod", VInt 200)]))) _ _
             eq_refl eq_refl eq_refl (or_introl eq_refl)).
  - exact (Hok (answering (Return sample_body)) _ _ _ _ _ _ _
             eq_refl eq_refl eq_refl eq_refl eq_refl eq_refl eq_refl).
Defined.

Lemma contains_main_weather (data : value) :
  Py.contains "main" data = Return false
  \/ Py.contains "weather" data = Return false ->
  (has_main ← Py.contains "main" data;
   if negb has_main then Return false else Py.contains "weather" data)
  = Return false.
Proof.
  destruct data; cbn [Py.contains mbind outcome_bind];
    try (intros [H | H]; discriminate H);
    intros [H | H]; injection H as H; rewrite ?H; cbn [negb];
    try reflexivity;
    match goal with
    | |- (if negb ?b then _ else _) = _ => destruct b; cbn [negb]
    end; rewrite ?H; reflexivity.
Qed.

(** C10: in both handlers the HTTP 500 for an unexpected upstream shape is
    raised inside the [try] body, so the last [except] clause catches it and
    raises a new HTTP 500 whose detail is "Internal Server Error: " followed
    by the text of the caught exception; no exception that leaves a handler
    has the shape-specific detail. *)
Theorem shape_error_rewrapped
  (env : environ) (get : requests_get_t) (create : create_t)
  (city request : string) :
  (* /weather: the check sits in the try body *)
  (forall url r data,
      get url = Return r -> raise_for_status r = Return () ->
      json r = Return data ->
      Py.contains "main" data = Return false
      \/ Py.contains "weather" data = Return false ->
      get_weather_try get city url
      = Raise (HTTPException 500 weather_shape_detail))
  (* /weather: what leaves the handler *)
  /\ (forall key,
         env !! "OPENWEATHER_KEY" = Some key -> key <> "" ->
         get_weather_try get city (weather_url city key)
         = Raise (HTTPException 500 weather_shape_detail) ->
         get_weather env get city
         = Raise (HTTPException 500
                    ("Internal Server Error: "
                     +:+ Py.str (HTTPException 500 weather_shape_detail))))
  /\ (forall status_code,
         get_weather env get city
         <> Raise (HTTPException status_code weather_shape_detail))
  (* /ask-openai: the check sits in the try body *)
  /\ (forall response choices,
         create "gpt-3.5-turbo"
           (VList [VDict [("role", VStr "user"); ("content", VStr request)]])
         = Return response ->
         Py.get response "choices" = Return choices ->
         Py.truthy choices = false
         \/ (exists first message,
                Py.getitem0 choices = Return first
                /\ Py.get first "message" = Return message
                /\ Py.truthy message = false) ->
         ask_openai_try create request
         = Raise (HTTPException 500 openai_shape_detail))
  (* /ask-openai: what leaves the handler *)
  /\ (ask_openai_try create request
      = Raise (HTTPException 500 openai_shape_detail) ->
      ask_openai create request
      = Raise (HTTPException 500
                 ("Internal Server Error: "
                  +:+ Py.str (HTTPException 500 openai_shape_detail))))
  /\ (forall status_code,
         ask_openai create request
         <> Raise (HTTPException status_code openai_shape_detail)).
Proof.
  split; [| split; [| split; [| split; [| split]]]].
  - intros url r data Hget Hstatus Hjson Hmissing.
    unfold get_weather_try. rewrite Hget. step.
    rewrite Hstatus. step. rewrite Hjson.
    step.
    pose proof (contains_main_weather data Hmissing) as Hboth.
    destruct (Py.contains "main" data) as [has_main |];
      cbn [mbind outcome_bind] in *; [| discriminate Hboth].
    rewrite Hboth. reflexivity.
  - intros key Hkey Hne Htry.
    rewrite (get_weather_with_key _ _ _ _ Hkey Hne), Htry. reflexivity.
  - intros status_code. unfold get_weather.
    destruct (negb _); [discriminate |].
    destruct (get_weather_try _ _ _) as [v | e]; [discriminate |].
    destruct e; cbn; discriminate.
  - intros response choices Hcreate Hchoices Hbad.
    unfold ask_openai_try. rewrite Hcreate. step.
    rewrite Hchoices. step.
    destruct Hbad as [Hfalse | (first & message & Hfirst & Hmessage & Hfalse)].
    + rewrite Hfalse. reflexivity.
    + destruct (Py.truthy choices); cbn [negb mbind outcome_bind];
        [| reflexivity].
      rewrite Hfirst. step. rewrite Hmessage.
      step. rewrite Hfalse. reflexivity.
  - intros Htry. unfold ask_openai. rewrite Htry. reflexivity.
  - intros status_code. unfold ask_openai.
    destruct (ask_openai_try _ _) as [v | e]; [discriminate |].
    destruct e; cbn; discriminate.
Qed.

End Proxies.

(** ** More on floats: NaN and the totality of the order *)

Section FloatsNaN.

Local Open Scope float_scope.

Lemma SFcompare_None (x y : spec_float) :
  SFcompare x y = None -> x = S754_nan \/ y = S754_nan.
Proof.
  destruct x as [sx|sx| |sx mx ex], y as [sy|sy| |sy my ey];
    try destruct sx; try destruct sy; simpl; auto; discriminate.
Qed.

Lemma is_nan_eq (x : float) : is_nan x = true -> x = nan.
Proof.
  rewrite is_nan_spec. intros H. apply Prim2SF_inj.
  destruct (Prim2SF x); try discriminate H. reflexivity.
Qed.

Lemma ltb_false_cases (x y : float) :
  (x <? y) = false ->
  is_nan x = true \/ is_nan y = true \/ (y <=? x) = true.
Proof.
  rewrite ltb_spec, leb_spec, !is_nan_spec. unfold SFltb, SFleb.
  rewrite (SFcompare_antisym (Prim2SF x) (Prim2SF y)).
  destruct (SFcompare (Prim2SF x) (Prim2SF y)) as [[]|] eqn:Hc;
    cbn [option_map CompOpp]; try discriminate; auto.
  apply SFcompare_None in Hc as [-> | ->]; auto.
Qed.

Lemma leb_false_cases (x y : float) :
  (x <=? y) = false ->
  is_nan x = true \/ is_nan y = true \/ (y <? x) = true.
Proof.
  rewrite ltb_spec, leb_spec, !is_nan_spec. unfold SFltb, SFleb.
  rewrite (SFcompare_antisym (Prim2SF x) (Prim2SF y)).
  destruct (SFcompare (Prim2SF x) (Prim2SF y)) as [[]|] eqn:Hc;
    cbn [option_map CompOpp]; try discriminate; auto.
  apply SFcompare_None in Hc as [-> | ->]; auto.
Qed.

(** Every comparison with NaN is false. *)
Lemma nan_compare (y : float) :
  (nan <? y) = false /\ (y <? nan) = false
  /\ (nan <=? y) = false /\ (y <=? nan) = false /\ (nan =? y) = false.
Proof.
  rewrite !ltb_spec, !leb_spec, FloatAxioms.eqb_spec.
  change (Prim2SF nan) with S754_nan.
  unfold SFltb, SFleb, SFeqb. destruct (Prim2SF y); repeat split; reflexivity.
Qed.

Lemma mul_nan_l (y : float) : nan * y = nan.
Proof.
  apply Prim2SF_inj. rewrite mul_spec. change (Prim2SF nan) with S754_nan.
  reflexivity.
Qed.

Lemma mul_nan_r (x : float) : x * nan = nan.
Proof.
  apply Prim2SF_inj. rewrite mul_spec. change (Prim2SF nan) with S754_nan.
  destruct (Prim2SF x); reflexivity.
Qed.

Lemma div_nan_l (y : float) : nan / y = nan.
Proof.
  apply Prim2SF_inj. rewrite div_spec. change (Prim2SF nan) with S754_nan.
  reflexivity.
Qed.

Lemma div_nan_r (x : float) : x / nan = nan.
Proof.
  apply Prim2SF_inj. rewrite div_spec. change (Prim2SF nan) with S754_nan.
  destruct (Prim2SF x); reflexivity.
Qed.

End FloatsNaN.

(** ** The thresholds, read backwards *)

Section ThresholdsExact.

(** X1: the payload tells the range: [check_hydration] returns the "Drink
    more water!" payload only below 2000 ml, the "You're well hydrated!"
    one only from 2000 to 3000 ml, the "Too much water!" one only above. *)
Theorem check_hydration_exact (water_ml : Z) :
  (check_hydration water_ml = Return hydration_low <-> (water_ml < 2000)%Z)
  /\ (check_hydration water_ml = Return hydration_good
      <-> (2000 <= water_ml <= 3000)%Z)
  /\ (check_hydration water_ml = Return hydration_high
      <-> (3000 < water_ml)%Z).
Proof.
  pose proof (check_hydration_cases water_ml) as (Hlow & Hgood & Hhigh).
  assert (Hcase : (water_ml < 2000)%Z \/ (2000 <= water_ml <= 3000)%Z
                  \/ (3000 < water_ml)%Z) by lia.
  split; [| split]; (split; [intros Hr | auto]);
    destruct Hcase as [Hc | [Hc | Hc]]; try exact Hc;
    first [rewrite (Hlow Hc) in Hr | rewrite (Hgood Hc) in Hr
          | rewrite (Hhigh Hc) in Hr]; discriminate Hr.
Qed.

Local Open Scope float_scope.

(** X2: the payload tells the range, and NaN counts as too much sleep:
    [sleep_score] gives score 50 exactly below 6 hours, score 90 exactly from
    6 to 8 hours, and score 70 exactly above 8 hours or when [hours] is
    NaN. *)
Theorem sleep_score_exact (hours : float) :
  (sleep_score hours = Return sleep_short <-> (hours <? 6) = true)
  /\ (sleep_score hours = Return sleep_healthy
      <-> (6 <=? hours) = true /\ (hours <=? 8) = true)
  /\ (sleep_score hours = Return sleep_long
      <-> (8 <? hours) = true \/ is_nan hours = true).
Proof.
  pose proof (sleep_score_cases hours) as (Hshort & Hhealthy & Hlong).
  assert (Hnan : is_nan hours = true -> sleep_score hours = Return sleep_long).
  { intros H. apply is_nan_eq in H. subst hours. reflexivity. }
  assert (Hcase : (hours <? 6) = true
                  \/ ((6 <=? hours) = true /\ (hours <=? 8) = true)
                  \/ (8 <? hours) = true \/ is_nan hours = true).
  { destruct (hours <? 6) eqn:H6; [auto |].
    apply ltb_false_cases in H6 as [H | [H | H]];
      [auto | discriminate H |].
    destruct (hours <=? 8) eqn:H8; [auto |].
    apply leb_false_cases in H8 as [H' | [H' | H']];
      [auto | discriminate H' | auto]. }
  split; [| split]; (split; [intros Hr | try (intros [Hc | Hc]); auto]);
    destruct Hcase as [Hc | [Hc | [Hc | Hc]]]; auto;
    first [rewrite (Hshort Hc) in Hr | rewrite (Hhealthy Hc) in Hr
          | rewrite (Hlong Hc) in Hr | rewrite (Hnan Hc) in Hr];
    discriminate Hr.
Qed.

End ThresholdsExact.

(** ** More on [calculate_bmi] and [calculate_calories] *)

Section Arithmetic.

Local Open Scope float_scope.

(** X3: the four outcomes of [calculate_bmi], and when each occurs.  A
    nonpositive weight or height gives the HTTP 400.  Otherwise the height in
    metres (divided by 100 when above 10) is squared with [**]: if that
    raises, the handler raises the same [OverflowError]; if it gives zero,
    the division raises [ZeroDivisionError]; if it gives any other float
    [sq], the handler returns [round (weight / sq, 2)].  Nothing else can
    happen, whatever the C library's [pow] is. *)
Theorem calculate_bmi_outcomes
  (pow_2 : float -> float) (weight height : float) :
  let metres := if 10 <? height then height / 100 else height in
  ((height <=? 0) || (weight <=? 0) = true
   /\ calculate_bmi pow_2 weight height
      = Raise (HTTPException 400
                 "Weight and height must be greater than zero."))
  \/ ((height <=? 0) || (weight <=? 0) = false
      /\ PyFloat.pow2 pow_2 metres
         = Raise (OverflowError "(34, 'Numerical result out of range')")
      /\ calculate_bmi pow_2 weight height
         = Raise (OverflowError "(34, 'Numerical result out of range')"))
  \/ (exists sq,
         (height <=? 0) || (weight <=? 0) = false
         /\ PyFloat.pow2 pow_2 metres = Return sq /\ (sq =? 0) = true
         /\ calculate_bmi pow_2 weight height
            = Raise (ZeroDivisionError "float division by zero"))
  \/ (exists sq,
         (height <=? 0) || (weight <=? 0) = false
         /\ PyFloat.pow2 pow_2 metres = Return sq /\ (sq =? 0) = false
         /\ calculate_bmi pow_2 weight height
            = Return (VDict [("bmi",
                              VFloat (PyFloat.round2 (weight / sq)))])).
Proof.
  cbv zeta. rewrite calculate_bmi_unfold.
  destruct ((height <=? 0) || (weight <=? 0)); [auto |].
  destruct (PyFloat.pow2 pow_2 _) as [sq | e] eqn:Hsq.
  - destruct (sq =? 0) eqn:Hz; [right; right; left | right; right; right];
      exists sq; auto.
  - rewrite (pow2_raises _ _ _ Hsq). auto.
Qed.

(** X4: NaN is not rejected.  A NaN height with a weight that is not
    nonpositive, and a NaN weight with a positive height whose square (in
    metres) neither raises nor is zero, both give [bmi = NaN]. *)
Theorem calculate_bmi_nan (pow_2 : float -> float) (weight height : float) :
  (is_nan height = true -> (weight <=? 0) = false ->
   calculate_bmi pow_2 weight height = Return (VDict [("bmi", VFloat nan)]))
  /\
  (is_nan weight = true -> (0 <? height) = true ->
   forall sq,
     PyFloat.pow2 pow_2 (if 10 <? height then height / 100 else height)
     = Return sq ->
     (sq =? 0) = false ->
     calculate_bmi pow_2 weight height = Return (VDict [("bmi", VFloat nan)])).
Proof.
  split.
  - intros Hnan Hw. apply is_nan_eq in Hnan. subst height.
    rewrite calculate_bmi_unfold, Hw.
    change (nan <=? 0) with false. change (10 <? nan) with false.
    cbn [orb]. change (PyFloat.pow2 pow_2 nan) with (@Return float nan).
    change (nan =? 0) with false. cbv iota.
    rewrite div_nan_r. reflexivity.
  - intros Hnan Hh sq Hsq Hnz. apply is_nan_eq in Hnan. subst weight.
    rewrite calculate_bmi_unfold, (ltb_leb_false _ _ Hh).
    change (nan <=? 0) with false. cbn [orb].
    rewrite Hsq, Hnz, div_nan_l. reflexivity.
Qed.

(** X5: centimetres and metres agree.  For a height above 10 whose
    hundredth lies in (0, 10], the handler gives the same outcome for the
    height and for its hundredth, whatever the weight. *)
Theorem calculate_bmi_cm_metres
  (pow_2 : float -> float) (weight height : float) :
  (10 <? height) = true ->
  (0 <? height / 100) = true -> (height / 100 <=? 10) = true ->
  calculate_bmi pow_2 weight height
  = calculate_bmi pow_2 weight (height / 100).
Proof.
  intros Hcm Hpos Hm.
  assert (Hh : (0 <? height) = true)
    by (apply (ltb_trans 0 10 height); [reflexivity | exact Hcm]).
  rewrite !calculate_bmi_unfold.
  rewrite (ltb_leb_false _ _ Hh), (ltb_leb_false _ _ Hpos), Hcm,
    (leb_ltb_false _ _ Hm).
  reflexivity.
Qed.

Lemma calculate_bmi_cm_metres_witness :
  (10 <? 175) = true /\ (0 <? 175 / 100) = true /\ (175 / 100 <=? 10) = true
  /\ calculate_bmi PyFloat.ieee_square 70 175
     = calculate_bmi PyFloat.ieee_square 70 (175 / 100).
Proof.
  repeat (split; [reflexivity |]).
  exact (calculate_bmi_cm_metres PyFloat.ieee_square 70 175
           eq_refl eq_refl eq_refl).
Defined.

Lemma met_values_known (activity_level : string) :
  known_level activity_level ->
  exists met, met_values !! activity_level = Some met /\ (met =? 0) = false.
Proof.
  intros [-> | [-> | ->]]; eexists; split; reflexivity.
Qed.

(** X6: [calculate_calories] raises nothing but its two HTTP 400s: for
    every input it raises the one for weight and duration, or the one for
    the activity level, or returns a [calories_burned] number. *)
Theorem calculate_calories_outcomes
  (weight duration : float) (activity_level : string) :
  calculate_calories weight duration activity_level
  = Raise (HTTPException 400 "Weight and duration must be greater than zero.")
  \/ calculate_calories weight duration activity_level
     = Raise (HTTPException 400
                "Invalid activity level. Choose from light, moderate, or vigorous.")
  \/ exists met,
      met_values !! activity_level = Some met
      /\ calculate_calories weight duration activity_level
         = Return (VDict [("calories_burned",
                           VFloat (PyFloat.round2
                                     (met * weight * duration / 60)))]).
Proof.
  unfold calculate_calories.
  destruct ((duration <=? 0) || (weight <=? 0)); [auto |].
  destruct (met_values !! activity_level) as [met |]; [| auto].
  destruct (met =? 0); [auto |].
  right. right. exists met. split; reflexivity.
Qed.

(** X7: NaN is not rejected by [calculate_calories] either: with a known
    activity level and neither weight nor duration nonpositive, a NaN weight
    or duration gives [calories_burned = NaN]. *)
Theorem calculate_calories_nan
  (weight duration : float) (activity_level : string) :
  is_nan weight = true \/ is_nan duration = true ->
  (weight <=? 0) = false -> (duration <=? 0) = false ->
  known_level activity_level ->
  calculate_calories weight duration activity_level
  = Return (VDict [("calories_burned", VFloat nan)]).
Proof.
  intros Hnan Hw Hd Hknown.
  destruct (met_values_known _ Hknown) as (met & Hmet & Hnz).
  unfold calculate_calories. rewrite Hw, Hd, Hmet, Hnz. cbn [orb].
  rewrite (truediv_nonzero _ 60) by reflexivity. step.
  assert (Hprod : met * weight * duration = nan).
  { destruct Hnan as [H | H]; apply is_nan_eq in H; subst.
    - rewrite mul_nan_r. apply mul_nan_l.
    - apply mul_nan_r. }
  rewrite Hprod, div_nan_l. reflexivity.
Qed.

Lemma calculate_calories_nan_witness :
  (is_nan nan = true \/ is_nan 30 = true)
  /\ (nan <=? 0) = false /\ (30 <=? 0) = false /\ known_level "light"
  /\ calculate_calories nan 30 "light"
     = Return (VDict [("calories_burned", VFloat nan)]).
Proof.
  assert (Hknown : known_level "light") by (left; reflexivity).
  split; [left; reflexivity |]. split; [reflexivity |].
  split; [reflexivity |]. split; [exact Hknown |].
  exact (calculate_calories_nan nan 30 "light" (or_introl eq_refl)
           eq_refl eq_refl Hknown).
Defined.

End Arithmetic.

(** ** More on the module body *)

Section StartupExact.

Lemma truthy_str_true (s : option string) :
  Py.truthy_str s = true <-> exists k, s = Some k /\ k <> "".
Proof.
  destruct s as [k |]; cbn [Py.truthy_str].
  - rewrite negb_true_iff, String.eqb_neq. split.
    + intros H. exists k. auto.
    + intros (k' & [= <-] & H). exact H.
  - split; [discriminate | intros (k & H & _); discriminate H].
Qed.

Lemma missing_vars_nil (env : environ) :
  missing_vars env = []
  <-> Py.truthy_str (env !! "OPENWEATHER_KEY") = true
      /\ Py.truthy_str (env !! "OPENAI_API_KEY") = true.
Proof.
  unfold missing_vars, required_env_vars. cbn [List.filter].
  destruct (Py.truthy_str (env !! "OPENWEATHER_KEY")),
           (Py.truthy_str (env !! "OPENAI_API_KEY")); cbn [negb];
    split; intros H; try discriminate H; try (destruct H; discriminate);
    auto.
Qed.

(** X8: the module body runs to the end exactly when both credentials are
    set to non-empty strings; the OpenAI client then holds the key of the
    environment, which is not empty.  A credential set to the empty string
    stops the start like an absent one. *)
Theorem main_py_starts_iff (env : environ) :
  ((exists a, main_py env = Return a)
   <-> exists k1 k2,
        env !! "OPENWEATHER_KEY" = Some k1 /\ k1 <> ""
        /\ env !! "OPENAI_API_KEY" = Some k2 /\ k2 <> "")
  /\ (forall a, main_py env = Return a ->
                exists key,
                  openai_api_key a = Some key /\ key <> ""
                  /\ env !! "OPENAI_API_KEY" = Some key)
  /\ (env !! "OPENWEATHER_KEY" = Some "" \/ env !! "OPENAI_API_KEY" = Some "" ->
      main_py env
      = Raise (RuntimeError ("Missing required environment variables: "
                             +:+ Py.join ", " (missing_vars env)))).
Proof.
  split; [| split].
  - unfold main_py. split.
    + intros [a Ha].
      destruct (bool_decide (missing_vars env = [])) eqn:Hdec;
        [| discriminate Ha].
      apply bool_decide_eq_true_1, missing_vars_nil in Hdec as [H1 H2].
      apply truthy_str_true in H1 as (k1 & H1 & Hne1).
      apply truthy_str_true in H2 as (k2 & H2 & Hne2).
      exists k1, k2. auto.
    + intros (k1 & k2 & H1 & Hne1 & H2 & Hne2).
      rewrite bool_decide_eq_true_2; [eexists; reflexivity |].
      apply missing_vars_nil. split; apply truthy_str_true; eauto.
  - intros a. unfold main_py.
    destruct (bool_decide (missing_vars env = [])) eqn:Hdec; [| discriminate].
    apply bool_decide_eq_true_1, missing_vars_nil in Hdec as [_ H2].
    apply truthy_str_true in H2 as (key & H2 & Hne).
    intros [= <-]. exists key. cbn. auto.
  - intros Hempty. unfold main_py.
    rewrite bool_decide_eq_false_2; [reflexivity |].
    rewrite missing_vars_nil. intros [H1 H2].
    destruct Hempty as [H | H]; rewrite H in *; discriminate.
Qed.

(** X18: the text of the start-up error.  The missing variables are named
    in the order of [required_env_vars], separated by a comma and a space:
    both, only the weather key, or only the OpenAI key. *)
Theorem main_py_message (env : environ) :
  (Py.truthy_str (env !! "OPENWEATHER_KEY") = false ->
   Py.truthy_str (env !! "OPENAI_API_KEY") = false ->
   main_py env
   = Raise (RuntimeError
              "Missing required environment variables: OPENWEATHER_KEY, OPENAI_API_KEY"))
  /\ (Py.truthy_str (env !! "OPENWEATHER_KEY") = false ->
      Py.truthy_str (env !! "OPENAI_API_KEY") = true ->
      main_py env
      = Raise (RuntimeError
                 "Missing required environment variables: OPENWEATHER_KEY"))
  /\ (Py.truthy_str (env !! "OPENWEATHER_KEY") = true ->
      Py.truthy_str (env !! "OPENAI_API_KEY") = false ->
      main_py env
      = Raise (RuntimeError
                 "Missing required environment variables: OPENAI_API_KEY")).
Proof.
  unfold main_py, missing_vars, required_env_vars. cbn [List.filter].
  repeat split; intros -> ->; reflexivity.
Qed.

End StartupExact.

(** ** More on [get_weather] and [ask_openai] *)

Section ProxiesExact.

Lemma bind_Return_inv {A B : Type} (m : outcome A) (k : A -> outcome B) (b : B) :
  m ≫= k = Return b -> exists a, m = Return a /\ k a = Return b.
Proof. destruct m as [a | e]; [eauto | discriminate]. Qed.

(** X9: [get_weather] answers with the "Missing OpenWeather API key." 500
    exactly when the key is absent from the environment or empty; whatever
    the network does then plays no part. *)
Theorem get_weather_missing_key_iff
  (env : environ) (get : requests_get_t) (city : string) :
  get_weather env get city = Raise (HTTPException 500 missing_key_detail)
  <-> env !! "OPENWEATHER_KEY" = None \/ env !! "OPENWEATHER_KEY" = Some "".
Proof.
  unfold get_weather. split.
  - destruct (env !! "OPENWEATHER_KEY") as [k |]; [| auto].
    cbn [Py.truthy_str]. destruct (String.eqb_spec k ""); [subst; auto |].
    cbn [negb].
    destruct (get_weather_try _ _ _) as [v | e]; [discriminate |].
    destruct e; cbn; discriminate.
  - intros [-> | ->]; reflexivity.
Qed.

(** X10: after a successful start the key check of [get_weather] cannot
    fail: in an environment in which the module body ran to the end, the
    handler never raises an exception with the missing-key detail. *)
Theorem started_then_weather_has_key
  (env : environ) (a : app) (get : requests_get_t) (city : string) :
  main_py env = Return a ->
  forall status, get_weather env get city
                 <> Raise (HTTPException status missing_key_detail).
Proof.
  intros Hstart status.
  assert (Hkey : Py.truthy_str (env !! "OPENWEATHER_KEY") = true).
  { unfold main_py in Hstart.
    destruct (bool_decide (missing_vars env = [])) eqn:Hdec;
      [| discriminate Hstart].
    apply bool_decide_eq_true_1, missing_vars_nil in Hdec. tauto. }
  unfold get_weather. rewrite Hkey. cbn [negb].
  destruct (get_weather_try _ _ _) as [v | e]; [discriminate |].
  destruct e; cbn; discriminate.
Qed.

Lemma started_then_weather_has_key_witness :
  main_py sample_env
  = Return {| endpoints := ["/"; "/bmi"; "/calories"; "/weather";
                            "/ask-openai"; "/hydration"; "/sleep-score"];
              openai_api_key := Some "k2" |}
  /\ get_weather sample_env (fun _ => Raise (Timeout "Read timed out.")) "Oslo"
     <> Raise (HTTPException 500 missing_key_detail).
Proof.
  split; [reflexivity |].
  exact (started_then_weather_has_key sample_env _
           (fun _ => Raise (Timeout "Read timed out.")) "Oslo" eq_refl 500%Z).
Defined.

Lemma get_weather_try_Return
  (get : requests_get_t) (city url : string) (v : value) :
  get_weather_try get city url = Return v ->
  exists temp description,
    v = VDict [("city", VStr city); ("temperature", temp);
               ("description", description)].
Proof.
  unfold get_weather_try. intros H.
  repeat match type of H with
         | _ ≫= _ = Return _ =>
             let a := fresh "a" in
             apply bind_Return_inv in H as (a & _ & H)
         end.
  destruct (negb _); [discriminate H |].
  repeat match type of H with
         | _ ≫= _ = Return _ =>
             let a := fresh "a" in
             apply bind_Return_inv in H as (a & _ & H)
         end.
  injection H as <-. eauto.
Qed.

(** X11: [get_weather] lets no exception through untranslated.  For every
    environment, network and city it either returns a dictionary with the
    requested city and a temperature and description, or raises an
    [HTTPException] with status 500, 502 or 504. *)
Theorem get_weather_only_http
  (env : environ) (get : requests_get_t) (city : string) :
  (exists temp description,
      get_weather env get city
      = Return (VDict [("city", VStr city); ("temperature", temp);
                       ("description", description)]))
  \/ (exists detail,
         get_weather env get city = Raise (HTTPException 500 detail))
  \/ (exists detail,
         get_weather env get city = Raise (HTTPException 502 detail))
  \/ get_weather env get city
     = Raise (HTTPException 504 "OpenWeather API request timed out.").
Proof.
  unfold get_weather. destruct (negb _); [eauto |].
  destruct (get_weather_try _ _ _) as [v | e] eqn:Htry.
  - apply get_weather_try_Return in Htry as (temp & description & ->). eauto.
  - destruct e; cbn [get_weather_except]; eauto.
Qed.

Lemma bind_Raise_inv {A B : Type} (m : outcome A) (k : A -> outcome B) (e : exn) :
  m ≫= k = Raise e -> m = Raise e \/ exists a, m = Return a /\ k a = Raise e.
Proof. destruct m as [a | e']; [eauto | intros [= <-]; auto]. Qed.

Lemma contains_raises (key : string) (data : value) (e : exn) :
  Py.contains key data = Raise e -> lookup_error e.
Proof. destruct data; cbn; intros [= <-]; exact I. Qed.

Lemma getitem_raises (data : value) (key : string) (e : exn) :
  Py.getitem data key = Raise e -> lookup_error e.
Proof.
  destruct data; cbn; try (intros [= <-]; exact I).
  destruct (Py.dict_lookup key items); intros [= <-]; exact I.
Qed.

Lemma getitem0_raises (data : value) (e : exn) :
  Py.getitem0 data = Raise e -> lookup_error e.
Proof.
  destruct data as [| | | | s | l |]; cbn; try (intros [= <-]; exact I).
  - destruct s; intros [= <-]; exact I.
  - destruct l; intros [= <-]; exact I.
Qed.

Lemma get_weather_try_Raise
  (get : requests_get_t) (city url : string) (r : Response) (data : value)
  (e : exn) :
  get url = Return r -> raise_for_status r = Return () ->
  json r = Return data ->
  get_weather_try get city url = Raise e ->
  lookup_error e \/ e = HTTPException 500 weather_shape_detail.
Proof.
  intros Hget Hstatus Hjson. unfold get_weather_try.
  rewrite Hget. step. rewrite Hstatus. step. rewrite Hjson. step.
  intros H.
  apply bind_Raise_inv in H as [H | (has_main & _ & H)];
    [left; exact (contains_raises _ _ _ H) |].
  apply bind_Raise_inv in H as [H | (has_both & _ & H)].
  { destruct (negb has_main); [discriminate H |].
    left; exact (contains_raises _ _ _ H). }
  destruct (negb has_both); [injection H as <-; auto |].
  apply bind_Raise_inv in H as [H | (main & _ & H)];
    [left; exact (getitem_raises _ _ _ H) |].
  apply bind_Raise_inv in H as [H | (temp & _ & H)];
    [left; exact (getitem_raises _ _ _ H) |].
  apply bind_Raise_inv in H as [H | (weather & _ & H)];
    [left; exact (getitem_raises _ _ _ H) |].
  apply bind_Raise_inv in H as [H | (first & _ & H)];
    [left; exact (getitem0_raises _ _ H) |].
  apply bind_Raise_inv in H as [H | (description & _ & H)];
    [left; exact (getitem_raises _ _ _ H) |].
  discriminate H.
Qed.

(** X12: once the upstream exchange succeeded (the call returned, the
    status was accepted and the body decoded), [get_weather] returns the
    payload or raises the catch-all 500: whatever the decoded body is, no 502
    or 504 and no other exception comes out. *)
Theorem get_weather_after_upstream_success
  (env : environ) (get : requests_get_t) (city key : string)
  (r : Response) (data : value) :
  env !! "OPENWEATHER_KEY" = Some key -> key <> "" ->
  get (weather_url city key) = Return r ->
  raise_for_status r = Return () -> json r = Return data ->
  (exists temp description,
      get_weather env get city
      = Return (VDict [("city", VStr city); ("temperature", temp);
                       ("description", description)]))
  \/ (exists text,
         get_weather env get city
         = Raise (HTTPException 500 ("Internal Server Error: " +:+ text))).
Proof.
  intros Hkey Hne Hget Hstatus Hjson.
  rewrite (get_weather_with_key _ _ _ _ Hkey Hne).
  destruct (get_weather_try _ _ _) as [v | e] eqn:Htry.
  - apply get_weather_try_Return in Htry as (temp & description & ->). eauto.
  - right. exists (Py.str e).
    destruct (get_weather_try_Raise _ _ _ _ _ _ Hget Hstatus Hjson Htry)
      as [Herr | ->]; [| reflexivity].
    destruct e; try contradiction; reflexivity.
Qed.

Lemma get_weather_after_upstream_success_witness :
  sample_env !! "OPENWEATHER_KEY" = Some "k1" /\ "k1" <> ""
  /\ ((exists temp description,
          get_weather sample_env (answering (Return (VList []))) "Oslo"
          = Return (VDict [("city", VStr "Oslo"); ("temperature", temp);
                           ("description", description)]))
      \/ (exists text,
             get_weather sample_env (answering (Return (VList []))) "Oslo"
             = Raise (HTTPException 500 ("Internal Server Error: " +:+ text)))).
Proof.
  assert (Hne : "k1" <> "") by discriminate.
  split; [reflexivity |]. split; [exact Hne |].
  exact (get_weather_after_upstream_success sample_env
           (answering (Return (VList []))) "Oslo" "k1" _ (VList [])
           eq_refl Hne eq_refl eq_refl eq_refl).
Defined.

(** X13: a body that has "main" and "weather" but not the inner shape is
    answered with the text of the Python error: a "main" object without
    "temp" gives detail "Internal Server Error: 'temp'", and an empty
    "weather" list gives "Internal Server Error: list index out of range". *)
Theorem get_weather_inner_shape
  (env : environ) (get : requests_get_t) (city key : string)
  (r : Response) (items : list (string * value)) (weather : value) :
  env !! "OPENWEATHER_KEY" = Some key -> key <> "" ->
  get (weather_url city key) = Return r ->
  raise_for_status r = Return () -> json r = Return (VDict items) ->
  Py.dict_lookup "weather" items = Some weather ->
  (forall main_items,
      Py.dict_lookup "main" items = Some (VDict main_items) ->
      Py.dict_lookup "temp" main_items = None ->
      get_weather env get city
      = Raise (HTTPException 500 "Internal Server Error: 'temp'"))
  /\ (forall main temp,
         Py.dict_lookup "main" items = Some main ->
         Py.getitem main "temp" = Return temp ->
         weather = VList [] ->
         get_weather env get city
         = Raise (HTTPException 500
                    "Internal Server Error: list index out of range")).
Proof.
  intros Hkey Hne Hget Hstatus Hjson Hweather.
  rewrite (get_weather_with_key _ _ _ _ Hkey Hne).
  unfold get_weather_try. rewrite Hget. step. rewrite Hstatus. step.
  rewrite Hjson. step. rewrite !dict_lookup_contains. step.
  split.
  - intros main_items Hmain Htemp. rewrite Hmain, Hweather.
    rewrite !bool_decide_eq_true_2 by eauto. cbn [negb]. step.
    rewrite (getitem_dict _ _ _ Hmain). step.
    unfold Py.getitem. rewrite Htemp. reflexivity.
  - intros main temp Hmain Htemp ->. rewrite Hmain, Hweather.
    rewrite !bool_decide_eq_true_2 by eauto. cbn [negb]. step.
    rewrite (getitem_dict _ _ _ Hmain). step. rewrite Htemp. step.
    rewrite (getitem_dict _ _ _ Hweather). reflexivity.
Qed.

Lemma get_weather_inner_shape_witness :
  sample_env !! "OPENWEATHER_KEY" = Some "k1" /\ "k1" <> ""
  /\ get_weather sample_env
       (answering (Return (VDict [("main", VDict [("humidity", VInt 40)]);
                                  ("weather", VList [])]))) "Oslo"
     = Raise (HTTPException 500 "Internal Server Error: 'temp'")
  /\ get_weather sample_env
       (answering (Return (VDict [("main", VDict [("temp", VInt 3)]);
                                  ("weather", VList [])]))) "Oslo"
     = Raise (HTTPException 500
                "Internal Server Error: list index out of range").
Proof.
  assert (Hne : "k1" <> "") by discriminate.
  split; [reflexivity |]. split; [exact Hne |]. split.
  - exact (proj1 (get_weather_inner_shape sample_env
                    (answering (Return (VDict [("main", VDict [("humidity", VInt 40)]);
                                               ("weather", VList [])])))
                    "Oslo" "k1" _ _ _ eq_refl Hne eq_refl eq_refl eq_refl
                    eq_refl) _ eq_refl eq_refl).
  - exact (proj2 (get_weather_inner_shape sample_env
                    (answering (Return (VDict [("main", VDict [("temp", VInt 3)]);
                                               ("weather", VList [])])))
                    "Oslo" "k1" _ _ _ eq_refl Hne eq_refl eq_refl eq_refl
                    eq_refl) _ _ eq_refl eq_refl eq_refl).
Defined.

End ProxiesExact.

Section OpenAIExact.

Lemma get_dict (key : string) (items : list (string * value)) (v : value) :
  Py.dict_lookup key items = Some v -> Py.get (VDict items) key = Return v.
Proof. intros H. unfold Py.get. rewrite H. reflexivity. Qed.

Lemma truthy_cons (v : value) (l : list value) : Py.truthy (VList (v :: l)) = true.
Proof. reflexivity. Qed.

(** X14: the outcomes of [ask_openai].  An [AuthenticationError] of the
    client gives 401 with a fixed detail (the upstream text is dropped); any
    other [OpenAIError] gives 502 with the upstream text; a response whose
    first choice has a non-empty message with a "content" gives that content
    back under "response"; a message without "content" gives the catch-all
    500 with the text of the [KeyError]. *)
Theorem ask_openai_outcomes (create : create_t) (request : string) :
  (forall msg,
      asked create request = Raise (AuthenticationError msg) ->
      ask_openai create request
      = Raise (HTTPException 401 "Invalid OpenAI API key."))
  /\ (forall msg,
         asked create request = Raise (OpenAIError msg) ->
         ask_openai create request
         = Raise (HTTPException 502 ("Bad Gateway: " +:+ msg)))
  /\ (forall response first_items rest message content,
         asked create request = Return response ->
         Py.get response "choices"
         = Return (VList (VDict first_items :: rest)) ->
         Py.dict_lookup "message" first_items = Some message ->
         Py.truthy message = true ->
         Py.getitem message "content" = Return content ->
         ask_openai create request = Return (VDict [("response", content)]))
  /\ (forall response first_items rest message_items,
         asked create request = Return response ->
         Py.get response "choices"
         = Return (VList (VDict first_items :: rest)) ->
         Py.dict_lookup "message" first_items = Some (VDict message_items) ->
         message_items <> [] ->
         Py.dict_lookup "content" message_items = None ->
         ask_openai create request
         = Raise (HTTPException 500 "Internal Server Error: 'content'")).
Proof.
  unfold asked, ask_openai, ask_openai_try.
  split; [| split; [| split]].
  - intros msg ->. reflexivity.
  - intros msg ->. reflexivity.
  - intros response first_items rest message content
      Hasked Hchoices Hmessage Htruthy Hcontent.
    rewrite Hasked. step. rewrite Hchoices. step.
    rewrite truthy_cons. cbn [negb Py.getitem0]. step.
    rewrite (get_dict _ _ _ Hmessage). step.
    rewrite Htruthy. cbn [negb]. step.
    rewrite (getitem_dict _ _ _ Hmessage). step.
    rewrite Hcontent. reflexivity.
  - intros response first_items rest message_items
      Hasked Hchoices Hmessage Hne Hcontent.
    rewrite Hasked. step. rewrite Hchoices. step.
    rewrite truthy_cons. cbn [negb Py.getitem0]. step.
    rewrite (get_dict _ _ _ Hmessage). step.
    cbn [Py.truthy]. rewrite bool_decide_eq_false_2 by exact Hne.
    cbn [negb]. step.
    rewrite (getitem_dict _ _ _ Hmessage). step.
    unfold Py.getitem. rewrite Hcontent. reflexivity.
Qed.

Lemma ask_openai_try_Return (create : create_t) (request : string) (v : value) :
  ask_openai_try create request = Return v ->
  exists content, v = VDict [("response", content)].
Proof.
  unfold ask_openai_try. intros H.
  apply bind_Return_inv in H as (response & _ & H).
  apply bind_Return_inv in H as (choices & _ & H).
  apply bind_Return_inv in H as (bad & _ & H).
  destruct bad; [discriminate H |].
  apply bind_Return_inv in H as (first & _ & H).
  apply bind_Return_inv in H as (message & _ & H).
  apply bind_Return_inv in H as (content & _ & H).
  injection H as <-. eauto.
Qed.

(** X15: [ask_openai] lets no exception through untranslated.  For every
    behaviour of the client it either returns a dictionary with the one key
    "response", or raises an [HTTPException] with status 401, 502 or 500. *)
Theorem ask_openai_only_http (create : create_t) (request : string) :
  (exists content,
      ask_openai create request = Return (VDict [("response", content)]))
  \/ ask_openai create request
     = Raise (HTTPException 401 "Invalid OpenAI API key.")
  \/ (exists detail,
         ask_openai create request = Raise (HTTPException 502 detail))
  \/ (exists detail,
         ask_openai create request = Raise (HTTPException 500 detail)).
Proof.
  unfold ask_openai.
  destruct (ask_openai_try _ _) as [v | e] eqn:Htry.
  - apply ask_openai_try_Return in Htry as (content & ->). eauto.
  - destruct e; cbn [ask_openai_except]; eauto 6.
Qed.

End OpenAIExact.

(** ** The handler for [Exception] *)

Section GlobalHandler.

Local Open Scope float_scope.

(** X16: what [calculate_bmi] raises and what the handler for [Exception]
    makes of it.  Whatever the handler raises is the HTTP 400 of the guard,
    or an arithmetic error which [global_exception_handler] turns into a 500
    whose detail is "Internal Server Error: " followed by the Python error
    text. *)
Theorem calculate_bmi_raises
  (pow_2 : float -> float) (weight height : float) (e : exn) :
  calculate_bmi pow_2 weight height = Raise e ->
  e = HTTPException 400 "Weight and height must be greater than zero."
  \/ global_exception_handler e
     = {| status_code := 500;
          content := VDict [("detail",
                             VStr "Internal Server Error: float division by zero")] |}
  \/ global_exception_handler e
     = {| status_code := 500;
          content := VDict [("detail",
                             VStr "Internal Server Error: (34, 'Numerical result out of range')")] |}.
Proof.
  rewrite calculate_bmi_unfold.
  destruct (_ || _); [intros [= <-]; auto |].
  destruct (PyFloat.pow2 pow_2 _) as [sq | e'] eqn:Hsq.
  - destruct (sq =? 0); [intros [= <-]; auto | discriminate].
  - intros [= <-]. rewrite (pow2_raises _ _ _ Hsq). auto.
Qed.

Lemma calculate_bmi_raises_witness :
  calculate_bmi PyFloat.ieee_square 70 1e-200
  = Raise (ZeroDivisionError "float division by zero")
  /\ global_exception_handler (ZeroDivisionError "float division by zero")
     = {| status_code := 500;
          content := VDict [("detail",
                             VStr "Internal Server Error: float division by zero")] |}.
Proof.
  split; [reflexivity |].
  destruct (calculate_bmi_raises PyFloat.ieee_square 70 1e-200 _ eq_refl)
    as [H | [H | H]];
    [discriminate H | exact H | discriminate H].
Defined.

(** X17: the last [except] clause of the two proxies and the handler for
    [Exception] word their answer alike: for an exception that reaches the
    last clause, the [HTTPException] raised carries the status and the
    detail of [global_exception_handler]'s response. *)
Theorem catch_all_like_global_handler (e : exn) :
  ((forall msg, e <> Timeout msg) -> (forall msg, e <> RequestException msg) ->
   exists detail,
     get_weather_except e
     = Raise (HTTPException (status_code (global_exception_handler e)) detail)
     /\ content (global_exception_handler e) = VDict [("detail", VStr detail)])
  /\
  ((forall msg, e <> AuthenticationError msg) ->
   (forall msg, e <> OpenAIError msg) ->
   exists detail,
     ask_openai_except e
     = Raise (HTTPException (status_code (global_exception_handler e)) detail)
     /\ content (global_exception_handler e) = VDict [("detail", VStr detail)]).
Proof.
  split; intros H1 H2; eexists;
    (split; [| reflexivity]);
    destruct e; try reflexivity;
    first [exfalso; eapply H1; reflexivity | exfalso; eapply H2; reflexivity].
Qed.

End GlobalHandler.
